(** * LRC editor: timestamps, lyric document and player synchronisation

    A shallow embedding of [src/lrc_editor.py] (class [LRCEditor] and [main])
    and of [create_transcription] of [src/main.py].

    Modelling conventions.
    - Python [str] values are [string]s of 7-bit characters; [list] values are
      Rocq lists; a Python [int] used as a list index is a [Z], with Python's
      rule that a negative index counts from the end.
    - Python [float] values are [pyfloat]: an exact rational, or one of the
      special values [inf], [-inf], [nan].  Arithmetic on the finite values is
      exact: binary rounding and overflow to infinity are not modelled.
    - The session bus, the wall clock and the file system are oracles
      indexed by a logical clock that advances at every call; each call
      either returns a value or raises.
    - A method of [LRCEditor] is a function from the machine state to a
      result (a value or a raised exception) and a new state. *)

From Stdlib Require Import ZArith QArith Qround Qabs Lia Lqa Bool.
From Stdlib Require Import Ascii String.
From stdpp Require Import base tactics option list.

Local Open Scope string_scope.
Local Open Scope Z_scope.

(** ** Python strings *)

Module PyStr.

(** [s.startswith(p)] *)
Fixpoint startswith (p s : string) : bool :=
  match p, s with
  | EmptyString, _ => true
  | String a p', String b s' => Ascii.eqb a b && startswith p' s'
  | String _ _, EmptyString => false
  end.

(** [s.index(c)] for a one-character [c]: [None] stands for [ValueError]. *)
Fixpoint index (c : ascii) (s : string) : option nat :=
  match s with
  | EmptyString => None
  | String a s' => if Ascii.eqb a c then Some O else S <$> index c s'
  end.

(** [s[i:j]] for [0 <= i] and [0 <= j] *)
Definition slice (i j : nat) (s : string) : string :=
  String.substring i (j - i) s.

(** [s[i:]] for [0 <= i] *)
Fixpoint drop (i : nat) (s : string) : string :=
  match i, s with
  | O, _ => s
  | S i', String _ s' => drop i' s'
  | S _, EmptyString => EmptyString
  end.

(** [s.split(c)] for a one-character separator *)
Fixpoint split (c : ascii) (s : string) : list string :=
  match s with
  | EmptyString => [EmptyString]
  | String a s' =>
      if Ascii.eqb a c then EmptyString :: split c s'
      else match split c s' with
           | p :: ps => String a p :: ps
           | [] => [String a EmptyString]
           end
  end.

(** [s.split(c, 1)]: at most one cut, at the first occurrence of [c] *)
Fixpoint split1 (c : ascii) (s : string) : list string :=
  match s with
  | EmptyString => [EmptyString]
  | String a s' =>
      if Ascii.eqb a c then [EmptyString; s']
      else match split1 c s' with
           | p :: ps => String a p :: ps
           | [] => [String a EmptyString]
           end
  end.

(** [c.isspace()] on 7-bit characters: TAB..CR, FS..US and the space *)
Definition isspace (c : ascii) : bool :=
  let n := nat_of_ascii c in
  ((9 <=? n)%nat && (n <=? 13)%nat) || ((28 <=? n)%nat && (n <=? 32)%nat).

Fixpoint lstrip (s : string) : string :=
  match s with
  | String a s' => if isspace a then lstrip s' else s
  | EmptyString => EmptyString
  end.

Fixpoint rstrip (s : string) : string :=
  match s with
  | EmptyString => EmptyString
  | String a s' =>
      match rstrip s' with
      | EmptyString => if isspace a then EmptyString else String a EmptyString
      | r => String a r
      end
  end.

(** [s.strip()] *)
Definition strip (s : string) : string := rstrip (lstrip s).

(** [c.lower()] on 7-bit characters *)
Definition lower (c : ascii) : ascii :=
  let n := nat_of_ascii c in
  if ((65 <=? n)%nat && (n <=? 90)%nat) then ascii_of_nat (n + 32) else c.

Fixpoint lowers (s : string) : string :=
  match s with
  | EmptyString => EmptyString
  | String a s' => String (lower a) (lowers s')
  end.

Definition is_digit (c : ascii) : bool :=
  let n := nat_of_ascii c in (48 <=? n)%nat && (n <=? 57)%nat.

Definition digit_val (c : ascii) : N := N.of_nat (nat_of_ascii c - 48).

Definition digit_char (d : N) : ascii := ascii_of_nat (48 + N.to_nat d).

End PyStr.

(** ** Python floats *)

Inductive pyfloat : Type :=
| PFin (q : Q)
| PInf
| NInf
| PNaN.

Module PyFloat.

Definition neg (x : pyfloat) : pyfloat :=
  match x with
  | PFin q => PFin (- q)
  | PInf => NInf
  | NInf => PInf
  | PNaN => PNaN
  end.

(** [x + y] *)
Definition add (x y : pyfloat) : pyfloat :=
  match x, y with
  | PFin a, PFin b => PFin (a + b)
  | PNaN, _ | _, PNaN => PNaN
  | PInf, NInf | NInf, PInf => PNaN
  | PInf, _ | _, PInf => PInf
  | NInf, _ | _, NInf => NInf
  end.

(** [x - y] *)
Definition sub (x y : pyfloat) : pyfloat := add x (neg y).

(** [x * 60] *)
Definition mul60 (x : pyfloat) : pyfloat :=
  match x with
  | PFin q => PFin (q * 60)
  | other => other
  end.

(** [abs(x)] *)
Definition abs (x : pyfloat) : pyfloat :=
  match x with
  | PFin q => PFin (Qabs q)
  | PInf | NInf => PInf
  | PNaN => PNaN
  end.

(** [x < y]; every comparison with [nan] is false *)
Definition ltb (x y : pyfloat) : bool :=
  match x, y with
  | PNaN, _ | _, PNaN => false
  | PFin a, PFin b => negb (Qle_bool b a)
  | PFin _, PInf => true
  | PFin _, NInf => false
  | PInf, _ => false
  | NInf, NInf => false
  | NInf, _ => true
  end.

(** [x >= 0] *)
Definition ge0 (x : pyfloat) : bool :=
  match x with
  | PFin q => Qle_bool 0 q
  | PInf => true
  | NInf | PNaN => false
  end.

(** A maximal [digitpart ::= digit (["_"] digit)*] at the head of [s], read
    after a first digit has been seen: the value accumulated so far, the
    number of digits and the unread rest. *)
Fixpoint digits_tail (acc : N) (cnt : nat) (s : string) : N * nat * string :=
  match s with
  | String a s' =>
      if PyStr.is_digit a
      then digits_tail (acc * 10 + PyStr.digit_val a) (S cnt) s'
      else if Ascii.eqb a "_"
      then match s' with
           | String b s'' =>
               if PyStr.is_digit b
               then digits_tail (acc * 10 + PyStr.digit_val b) (S cnt) s''
               else (acc, cnt, s)
           | EmptyString => (acc, cnt, s)
           end
      else (acc, cnt, s)
  | EmptyString => (acc, cnt, s)
  end.

Definition digitpart (acc : N) (s : string) : option (N * nat * string) :=
  match s with
  | String a s' =>
      if PyStr.is_digit a
      then Some (digits_tail (acc * 10 + PyStr.digit_val a) 1 s')
      else None
  | EmptyString => None
  end.

(** An optional [exponent ::= ("e" | "E") [sign] digitpart] that must reach
    the end of the text; without an exponent the value is [0]. *)
Definition exponent (s : string) : option Z :=
  match s with
  | EmptyString => Some 0
  | String a s' =>
      if Ascii.eqb (PyStr.lower a) "e" then
        let '(sg, body) :=
          match s' with
          | String b t =>
              if Ascii.eqb b "-" then (-1, t)
              else if Ascii.eqb b "+" then (1, t) else (1, s')
          | EmptyString => (1, s')
          end in
        match digitpart 0 body with
        | Some (v, _, EmptyString) => Some (sg * Z.of_N v)
        | _ => None
        end
      else None
  end.

(** [m * 10 ** e] *)
Definition scale10 (m : N) (e : Z) : Q := inject_Z (Z.of_N m) * Qpower 10 e.

(** [floatnumber ::= ([digitpart] "." digitpart | digitpart ["."]) [exponent]] *)
Definition floatnumber (s : string) : option Q :=
  match digitpart 0 s with
  | Some (ip, _, r) =>
      match r with
      | String a r' =>
          if Ascii.eqb a "." then
            match digitpart ip r' with
            | Some (m, k, r'') =>
                e ← exponent r''; Some (scale10 m (e - Z.of_nat k))
            | None => e ← exponent r'; Some (scale10 ip e)
            end
          else e ← exponent r; Some (scale10 ip e)
      | EmptyString => Some (scale10 ip 0)
      end
  | None =>
      match s with
      | String a r' =>
          if Ascii.eqb a "." then
            match digitpart 0 r' with
            | Some (m, k, r'') =>
                e ← exponent r''; Some (scale10 m (e - Z.of_nat k))
            | None => None
            end
          else None
      | EmptyString => None
      end
  end.

(** [absfloatvalue ::= floatnumber | infinity | nan] *)
Definition absfloatvalue (s : string) : option pyfloat :=
  let l := PyStr.lowers s in
  if String.eqb l "inf" || String.eqb l "infinity" then Some PInf
  else if String.eqb l "nan" then Some PNaN
  else PFin <$> floatnumber s.

(** [float(s)]: [None] stands for [ValueError]. *)
Definition of_string (s : string) : option pyfloat :=
  match PyStr.strip s with
  | String a s' =>
      if Ascii.eqb a "-" then neg <$> absfloatvalue s'
      else if Ascii.eqb a "+" then absfloatvalue s'
      else absfloatvalue (String a s')
  | EmptyString => None
  end.

End PyFloat.

(** ** Formatting and parsing LRC timestamps *)

(** The decimal digits of [n], most significant first; [fuel + 1] bounds
    their number. *)
Fixpoint digits_fuel (fuel : nat) (n : N) (acc : string) : string :=
  let acc' := String (PyStr.digit_char (n mod 10)) acc in
  match fuel with
  | O => acc'
  | S f => if (n / 10 =? 0)%N then acc' else digits_fuel f (n / 10) acc'
  end.

(** [str(n)] for [n >= 0] *)
Definition str_of_N (n : N) : string :=
  digits_fuel (N.to_nat (N.log2 n)) n EmptyString.

(** [s.rjust(w, "0")] for a text without sign *)
Definition zfill (w : nat) (s : string) : string :=
  Nat.iter (w - String.length s) (String "0") s.

(** [f"{z:02d}"]: the sign counts in the width. *)
Definition fmt_02d (z : Z) : string :=
  if z <? 0 then String "-" (zfill 1 (str_of_N (Z.to_N (- z))))
  else zfill 2 (str_of_N (Z.to_N z)).

(** Rounding to the nearest integer, ties to even. *)
Definition round_half_even (x : Q) : Z :=
  let f := Qfloor x in
  match ((x - inject_Z f) ?= (1 # 2))%Q with
  | Lt => f
  | Gt => f + 1
  | Eq => if Z.even f then f else f + 1
  end.

(** [f"{x:05.2f}"]: two decimals, zero-padded to five characters, the sign
    of a negative [x] first. *)
Definition fmt_05_2f (x : Q) : string :=
  let c := Z.to_N (Z.abs (round_half_even (x * 100))) in
  let body := fun w =>
    zfill w (str_of_N (c / 100)) ++ "." ++ zfill 2 (str_of_N (c mod 100)) in
  if Qle_bool 0 x then body 2%nat else String "-" (body 1%nat).

Section Timestamps.

(** [LRCEditor.format_timestamp] *)
Definition format_timestamp (seconds : Q) : string :=
  let minutes := Qfloor (seconds / 60) in
  let seconds := (seconds - inject_Z (60 * minutes))%Q in
  "[" ++ fmt_02d minutes ++ ":" ++ fmt_05_2f seconds ++ "]".

(** [LRCEditor.extract_timestamp]; both [ValueError] and [IndexError] are
    caught and give the sentinel [-1]. *)
Definition extract_timestamp (line : string) : pyfloat :=
  if negb (PyStr.startswith "[" line) then PFin (-1)
  else
    match PyStr.index "]" line with
    | None => PFin (-1)
    | Some j =>
        let timestamp := PyStr.slice 1 j line in
        match PyStr.split ":" timestamp with
        | [minutes; seconds] =>
            match PyFloat.of_string minutes with
            | None => PFin (-1)
            | Some fm =>
                match PyFloat.of_string seconds with
                | None => PFin (-1)
                | Some fs => PyFloat.add (PyFloat.mul60 fm) fs
                end
            end
        | _ => PFin (-1)
        end
    end.

End Timestamps.

(** ** Python lists indexed by an [int] *)

Module PyList.
Section Ops.
Context {A : Type}.

(** The position an index denotes: [i] itself when [0 <= i < len], counted
    from the end when [-len <= i < 0]; [None] stands for [IndexError]. *)
Definition norm_index (l : list A) (i : Z) : option nat :=
  let n := Z.of_nat (length l) in
  if (0 <=? i) && (i <? n) then Some (Z.to_nat i)
  else if (- n <=? i) && (i <? 0) then Some (Z.to_nat (n + i))
  else None.

(** [l[i]] *)
Definition getitem (l : list A) (i : Z) : option A :=
  k ← norm_index l i; l !! k.

(** [l[i] = x] *)
Definition setitem (l : list A) (i : Z) (x : A) : option (list A) :=
  k ← norm_index l i; Some (<[k:=x]> l).

(** [l.pop(i)], keeping only the remaining list *)
Definition pop (l : list A) (i : Z) : option (list A) :=
  k ← norm_index l i; Some (delete k l).

End Ops.
End PyList.

(** ** The editor object and its environment *)

(** The fields of [LRCEditor] that the methods below read or write.
    [current_player], [player_interface] and [properties_interface] are set
    together by [connect_player] and cleared together by its handler: the
    field [current_player] stands for the three, and holds the bus name of
    the connected player.  [debug_mode] is [False], so nothing is logged;
    [sync_ticker] is assigned [None] and never read. *)
Record editor : Type := Editor {
  lines : list string;
  current_line : Z;
  modified : bool;
  last_timestamp : option string;
  last_timestamp_value : option Q;
  last_timestamp_time : option Q;
  current_song : string;
  current_file : option string;
  current_player : option string;
  edit_mode : bool
}.

Definition set_lines (v : list string) (e : editor) : editor :=
  Editor v (current_line e) (modified e) (last_timestamp e)
    (last_timestamp_value e) (last_timestamp_time e) (current_song e)
    (current_file e) (current_player e) (edit_mode e).
Definition set_current_line (v : Z) (e : editor) : editor :=
  Editor (lines e) v (modified e) (last_timestamp e)
    (last_timestamp_value e) (last_timestamp_time e) (current_song e)
    (current_file e) (current_player e) (edit_mode e).
Definition set_modified (v : bool) (e : editor) : editor :=
  Editor (lines e) (current_line e) v (last_timestamp e)
    (last_timestamp_value e) (last_timestamp_time e) (current_song e)
    (current_file e) (current_player e) (edit_mode e).
Definition set_last (ts : string) (v t : Q) (e : editor) : editor :=
  Editor (lines e) (current_line e) (modified e) (Some ts) (Some v) (Some t)
    (current_song e) (current_file e) (current_player e) (edit_mode e).
Definition set_current_song (v : string) (e : editor) : editor :=
  Editor (lines e) (current_line e) (modified e) (last_timestamp e)
    (last_timestamp_value e) (last_timestamp_time e) v
    (current_file e) (current_player e) (edit_mode e).
Definition set_current_file (v : option string) (e : editor) : editor :=
  Editor (lines e) (current_line e) (modified e) (last_timestamp e)
    (last_timestamp_value e) (last_timestamp_time e) (current_song e)
    v (current_player e) (edit_mode e).
Definition set_current_player (v : option string) (e : editor) : editor :=
  Editor (lines e) (current_line e) (modified e) (last_timestamp e)
    (last_timestamp_value e) (last_timestamp_time e) (current_song e)
    (current_file e) v (edit_mode e).
Definition set_edit_mode (v : bool) (e : editor) : editor :=
  Editor (lines e) (current_line e) (modified e) (last_timestamp e)
    (last_timestamp_value e) (last_timestamp_time e) (current_song e)
    (current_file e) (current_player e) v.

(** [LRCEditor.__init__] *)
Definition init_editor : editor :=
  Editor [] 0 false None None None "No song playing" None None false.

(** What a call to the outside returns. *)
Inductive reply (A : Type) : Type :=
| Returns (a : A)
| Raises.
Arguments Returns {A} a.
Arguments Raises {A}.

(** The [Metadata] property: the keys the editor looks at. *)
Record metadata : Type := Metadata {
  xesam_title : option string;
  xesam_artist : option (list string);
  xesam_url : option string
}.

(** The lyric file next to the playing audio file, as
    [load_lrc_from_current] meets it. *)
Inductive lrc_file : Type :=
| LrcPathError                  (* [with_suffix] or [exists] raises *)
| LrcAbsent                     (* [exists()] is false *)
| LrcUnreadable                 (* [open] or [readlines] raises *)
| LrcLines (ls : list string).  (* the list [readlines()] returns *)

(** The environment: every answer depends on the logical time of the call. *)
Record world : Type := World {
  get_object : string -> nat -> reply unit;
  ListNames : nat -> reply (list string);
  PlaybackStatus : string -> nat -> reply string;
  Position : string -> nat -> reply Z;
  GetMetadata : string -> nat -> reply metadata;
  Seek : string -> Z -> nat -> reply unit;
  Play : string -> nat -> reply unit;
  time_time : nat -> Q;
  lrc_of : string -> nat -> lrc_file;
  unquote : string -> string
}.

Inductive exn : Type :=
| IndexError
| AttributeError
| DBusException.

Inductive result (A : Type) : Type :=
| Val (a : A)
| Exc (e : exn).
Arguments Val {A} a.
Arguments Exc {A} e.

(** The editor together with the number of outside calls made so far. *)
Record machine : Type := Machine { ed : editor; clock : nat }.

(** A computation: a result and the state it leaves; a raised exception
    keeps the assignments made before it. *)
Definition M (A : Type) : Type := machine -> result A * machine.

Definition ret {A} (a : A) : M A := fun s => (Val a, s).

Definition bind {A B} (m : M A) (k : A -> M B) : M B :=
  fun s => match m s with
           | (Val a, s') => k a s'
           | (Exc e, s') => (Exc e, s')
           end.

Definition raise {A} (e : exn) : M A := fun s => (Exc e, s).

(** [try: m  except Exception: h] *)
Definition try_except {A} (m : M A) (h : M A) : M A :=
  fun s => match m s with
           | (Val a, s') => (Val a, s')
           | (Exc _, s') => h s'
           end.

Definition self : M editor := fun s => (Val (ed s), s).

Definition assign (f : editor -> editor) : M unit :=
  fun s => (Val tt, Machine (f (ed s)) (clock s)).

Definition call {A} (o : nat -> reply A) : M A :=
  fun s => let s' := Machine (ed s) (S (clock s)) in
           match o (clock s) with
           | Returns a => (Val a, s')
           | Raises => (Exc DBusException, s')
           end.

Definition ask {A} (o : nat -> A) : M A :=
  fun s => (Val (o (clock s)), Machine (ed s) (S (clock s))).

(** A Python value that may be [None] turned into an exception. *)
Definition or_raise {A} (e : exn) (o : option A) : M A :=
  match o with Some a => ret a | None => raise e end.

Declare Scope py_scope.
Delimit Scope py_scope with py.
Notation "x <- m ;; k" := (bind m (fun x => k))
  (at level 100, m at next level, right associativity) : py_scope.
Notation "m ;; k" := (bind m (fun _ => k))
  (at level 100, right associativity) : py_scope.
Local Open Scope py_scope.

(** ** The methods of [LRCEditor] *)

Definition preferred_players : list string :=
  ["org.mpris.MediaPlayer2.audacious"; "org.mpris.MediaPlayer2.vlc";
   "org.mpris.MediaPlayer2.rhythmbox"].

(** The first preferred prefix that some player has, and the first player
    that has it. *)
Fixpoint find_preferred (prefs players : list string) : option string :=
  match prefs with
  | [] => None
  | preferred :: prefs' =>
      match List.find (PyStr.startswith preferred) players with
      | Some p => Some p
      | None => find_preferred prefs' players
      end
  end.

Definition select_player (players : list string) : option string :=
  match find_preferred preferred_players players with
  | Some p => if String.eqb p EmptyString then head players else Some p
  | None => head players
  end.

(** The loop of [move_to_closest_timestamp]: [best] is the pair
    [(closest_diff, closest_line)], [i] the index of the head of [ls]. *)
Fixpoint closest_scan (position : Q) (ls : list string) (i : Z)
    (best : pyfloat * Z) : pyfloat * Z :=
  match ls with
  | [] => best
  | line :: ls' =>
      let timestamp := extract_timestamp line in
      let best' :=
        if PyFloat.ge0 timestamp then
          let diff := PyFloat.abs (PyFloat.sub timestamp (PFin position)) in
          if PyFloat.ltb diff (fst best) then (diff, i) else best
        else best in
      closest_scan position ls' (i + 1) best'
  end.

(** [any(self.extract_timestamp(line) >= 0 for line in self.lines)] *)
Definition has_timestamps (ls : list string) : bool :=
  existsb (fun line => PyFloat.ge0 (extract_timestamp line)) ls.

Section Methods.
Variable w : world.

(** [LRCEditor._update_metadata] (the second definition in the class, which
    replaces the first) *)
Definition _update_metadata : M unit :=
  try_except
    (e <- self;;
     match current_player e with
     | None => ret tt
     | Some p =>
         md <- call (GetMetadata w p);;
         match xesam_title md with
         | Some title =>
             assign (set_current_song
               match xesam_artist md with
               | Some (artist :: _) => title ++ " - " ++ artist
               | _ => title
               end)
         | None => ret tt
         end;;
         match xesam_url md with
         | Some url =>
             if PyStr.startswith "file://" url
             then assign (set_current_file
                            (Some (unquote w (PyStr.drop 7 url))))
             else ret tt
         | None => ret tt
         end
     end)
    (ret tt).

(** [LRCEditor.get_playback_status] *)
Definition get_playback_status : M string :=
  try_except
    (e <- self;;
     match current_player e with
     | None => ret "Stopped"
     | Some p => call (PlaybackStatus w p)
     end)
    (ret "Unknown").

(** [LRCEditor.connect_player] *)
Definition connect_player : M bool :=
  try_except
    (call (get_object w "org.freedesktop.DBus");;
     services <- call (ListNames w);;
     let players :=
       List.filter (PyStr.startswith "org.mpris.MediaPlayer2.") services in
     match select_player players with
     | None => ret false
     | Some player_name =>
         call (get_object w player_name);;
         assign (set_current_player (Some player_name));;
         status <- get_playback_status;;
         (if String.eqb status "Playing" then _update_metadata else ret tt);;
         ret true
     end)
    (assign (set_current_player None);;
     assign (set_edit_mode true);;
     ret false).

(** [self.X is None and not self.connect_player()] *)
Definition not_connected : M bool :=
  e <- self;;
  match current_player e with
  | None => c <- connect_player;; ret (negb c)
  | Some _ => ret false
  end.

(** [LRCEditor.get_player_position]: the position in seconds, or [-1]. *)
Definition get_player_position : M Q :=
  try_except
    (nc <- not_connected;;
     if nc then ret (-1)%Q
     else
       status <- get_playback_status;;
       if negb (String.eqb status "Playing") then ret (-1)%Q
       else
         e <- self;;
         p <- or_raise AttributeError (current_player e);;
         us <- call (Position w p);;
         let position := (inject_Z us / 1000000)%Q in
         call (GetMetadata w p);;
         e <- self;;
         (if String.eqb (current_song e) EmptyString
             || String.eqb (current_song e) "No song playing"
          then _update_metadata else ret tt);;
         ret position)
    (ret (-1)%Q).

(** [LRCEditor.add_timestamp].  [get_player_position] returns a number on
    every path, so the test [position is not None] always succeeds and the
    final [return False] is never reached. *)
Definition add_timestamp : M bool :=
  position <- get_player_position;;
  let timestamp := format_timestamp position in
  now <- ask (time_time w);;
  assign (set_last timestamp position now);;
  e <- self;;
  line <- or_raise IndexError (PyList.getitem (lines e) (current_line e));;
  (if PyStr.startswith "[" line then
     rest <- or_raise IndexError (PyStr.split1 "]" line !! 1%nat);;
     ls <- or_raise IndexError
             (PyList.setitem (lines e) (current_line e) (timestamp ++ rest));;
     assign (set_lines ls)
   else
     ls <- or_raise IndexError
             (PyList.setitem (lines e) (current_line e) (timestamp ++ line));;
     assign (set_lines ls));;
  assign (set_modified true);;
  e <- self;;
  (if current_line e <? Z.of_nat (length (lines e)) - 1
   then assign (set_current_line (current_line e + 1))
   else assign (set_lines (lines e ++ [EmptyString]));;
        assign (set_current_line (current_line e + 1)));;
  ret true.

(** [LRCEditor.remove_timestamp] *)
Definition remove_timestamp : M unit :=
  e <- self;;
  line <- or_raise IndexError (PyList.getitem (lines e) (current_line e));;
  if String.eqb line EmptyString then
    if (1 <? length (lines e))%nat then
      ls <- or_raise IndexError (PyList.pop (lines e) (current_line e));;
      assign (set_lines ls);;
      (if Z.of_nat (length ls) <=? current_line e
       then assign (set_current_line (Z.of_nat (length ls) - 1))
       else ret tt);;
      assign (set_modified true)
    else ret tt
  else if PyStr.startswith "[" line then
    let parts := PyStr.split1 "]" line in
    ls <- or_raise IndexError
            (PyList.setitem (lines e) (current_line e)
               (if (1 <? length parts)%nat then default EmptyString (parts !! 1%nat)
                else EmptyString));;
    assign (set_lines ls);;
    assign (set_modified true)
  else ret tt.

(** [LRCEditor.seek_relative] *)
Definition seek_relative (offset_seconds : Z) : M bool :=
  try_except
    (nc <- not_connected;;
     if nc then ret false
     else
       e <- self;;
       p <- or_raise AttributeError (current_player e);;
       position <- call (Position w p);;
       let new_position := Z.max 0 (position + offset_seconds * 1000000) in
       call (Seek w p (new_position - position));;
       ret true)
    (ret false).

(** [LRCEditor.restart_playback] *)
Definition restart_playback : M bool :=
  try_except
    (nc <- not_connected;;
     if nc then ret false
     else
       e <- self;;
       p <- or_raise AttributeError (current_player e);;
       call (Seek w p 0);;
       call (Play w p);;
       ret true)
    (ret false).

(** [LRCEditor.load_lrc_from_current] *)
Definition load_lrc_from_current : M bool :=
  e <- self;;
  match current_file e with
  | None => ret false
  | Some f =>
      if String.eqb f EmptyString then ret false
      else
        file <- ask (lrc_of w f);;
        match file with
        | LrcPathError => ret false
        | LrcAbsent =>
            assign (set_lines []);; assign (set_current_line 0);; ret true
        | LrcUnreadable => assign (set_lines []);; ret false
        | LrcLines ls =>
            assign (set_lines []);; assign (set_lines ls);;
            assign (set_current_line 0);; ret true
        end
  end.

(** [LRCEditor.get_relative_time] *)
Definition get_relative_time : M (option Q) :=
  e <- self;;
  match last_timestamp_value e, last_timestamp_time e with
  | Some v, Some t => now <- ask (time_time w);; ret (Some (v + (now - t))%Q)
  | _, _ => ret None
  end.

(** [LRCEditor.move_to_closest_timestamp]: [None], [True] or [False]. *)
Definition move_to_closest_timestamp : M (option bool) :=
  position <- get_player_position;;
  if negb (Qle_bool 0 position) then ret None
  else
    e <- self;;
    let closest_line :=
      snd (closest_scan position (lines e) 0 (PInf, current_line e)) in
    if negb (closest_line =? current_line e)
    then assign (set_current_line closest_line);; ret (Some true)
    else ret (Some false).


End Methods.

(** ** The command loop and [main] *)

(** The keys [run] reacts to; [Key_down] is [j] or the down arrow, [Key_up]
    is [k] or the up arrow, [Key_other] any other key. *)
Inductive key : Type :=
| Key_space | Key_x | Key_r | Key_left | Key_right | Key_down | Key_up
| Key_s | Key_l | Key_e | Key_q | Key_enter | Key_other.

(** What [run] returns. *)
Inductive exit : Type := Save | Quit.

Section Loop.
Variable w : world.

(** [self.current_line = min(self.current_line + 1, len(self.lines) - 1)] *)
Definition cursor_down : M unit :=
  e <- self;;
  assign (set_current_line
            (Z.min (current_line e + 1) (Z.of_nat (length (lines e)) - 1))).

(** [self.current_line = max(self.current_line - 1, 0)] *)
Definition cursor_up : M unit :=
  e <- self;;
  assign (set_current_line (Z.max (current_line e - 1) 0)).

(** The branch of [run] for a pressed key. *)
Definition dispatch (k : key) : M (option exit) :=
  match k with
  | Key_space => add_timestamp w;; ret None
  | Key_x => remove_timestamp;; ret None
  | Key_r => restart_playback w;; ret None
  | Key_left => seek_relative w (-5);; ret None
  | Key_right => seek_relative w 5;; ret None
  | Key_down => cursor_down;; ret None
  | Key_up => cursor_up;; ret None
  | Key_s => ret (Some Save)
  | Key_l => load_lrc_from_current w;; ret None
  | Key_e =>
      e <- self;;
      assign (set_edit_mode (negb (edit_mode e)));;
      load_lrc_from_current w;;
      ret None
  | Key_q => ret (Some Quit)
  | Key_enter => move_to_closest_timestamp w;; ret None
  | Key_other => ret None
  end.

(** The periodic part of an iteration: in Sync mode, once [sync_interval]
    (one second) has passed since [last_sync_time]. *)
Definition sync_tick (last_sync_time current_time : Q) : M Q :=
  e <- self;;
  if negb (edit_mode e) && Qle_bool 1 (current_time - last_sync_time)
  then move_to_closest_timestamp w;; ret current_time
  else ret last_sync_time.

(** One iteration of the [while True] of [run]: the status line asks for
    the position and the relative time, then [getch] gives a key or times
    out ([None]). *)
Definition run_iteration (last_sync_time : Q) (k : option key)
    : M (Q * option exit) :=
  get_player_position w;;
  get_relative_time w;;
  current_time <- ask (time_time w);;
  last_sync_time <- sync_tick last_sync_time current_time;;
  match k with
  | None => ret (last_sync_time, None)
  | Some k => r <- dispatch k;; ret (last_sync_time, r)
  end.

(** [run] on the keys that [getch] delivers, one per iteration; [None]
    when the keys are used up before the loop returns. *)
Fixpoint run_from (last_sync_time : Q) (keys : list (option key))
    : M (option exit) :=
  match keys with
  | [] => ret None
  | k :: keys' =>
      r <- run_iteration last_sync_time k;;
      match snd r with
      | Some x => ret (Some x)
      | None => run_from (fst r) keys'
      end
  end.

Definition run : list (option key) -> M (option exit) := run_from 0.

(** The start of [main]: the editor is created, asked once for the
    position, and given [content], the lines of the lyric file. *)
Definition main_start (content : list string) : M unit :=
  get_player_position w;;
  assign (set_lines (match content with [] => [EmptyString] | _ => content end)).


End Loop.

(** [result == 'save' and editor.modified] at the end of [main] *)
Definition main_writes (r : option exit) (e : editor) : bool :=
  match r with
  | Some Save => modified e
  | _ => false
  end.

(** ** Properties of documents *)

(** The cursor designates a line of the document. *)
Definition cursor_ok (e : editor) : Prop :=
  (1 <= length (lines e))%nat /\
  0 <= current_line e <= Z.of_nat (length (lines e)) - 1.

(** The states the program can be in between two iterations of [run]. *)
Definition reachable (w : world) (s : machine) : Prop :=
  exists content t0 s0 keys,
    main_start w content (Machine init_editor t0) = (Val tt, s0) /\
    run w keys s0 = (Val None, s).



(** A timestamp that is a number, and not negative. *)
Definition finite_timestamp (line : string) : Prop :=
  exists q, extract_timestamp line = PFin q /\ (0 <= q)%Q.



(** The document proper: the lines and the cursor. *)
Definition document (e : editor) : list string * Z :=
  (lines e, current_line e).

(** Whenever [op] changes the document, it leaves the modified flag set. *)
Definition sets_modified {A} (op : M A) : Prop :=
  forall s, document (ed (snd (op s))) <> document (ed s) ->
            modified (ed (snd (op s))) = true.

(** [remove_timestamp] does nothing on a cursor line that is not empty
    and for which [extract_timestamp] gives the sentinel. *)
Definition untimed_line_kept : Prop :=
  forall s line,
    PyList.getitem (lines (ed s)) (current_line (ed s)) = Some line ->
    line <> EmptyString ->
    extract_timestamp line = PFin (-1) ->
    remove_timestamp s = (Val tt, s).

(** ** Two environments *)

(** No session bus: every call raises, and there is no lyric file. *)
Definition silent_world : world :=
  World (fun _ _ => Raises) (fun _ => Raises) (fun _ _ => Raises)
    (fun _ _ => Raises) (fun _ _ => Raises) (fun _ _ _ => Raises)
    (fun _ _ => Raises) (fun n => inject_Z (Z.of_nat n))
    (fun _ _ => LrcAbsent) (fun s => s).

(** A player that is playing [/music/song.mp3], whose lyric file exists
    and is empty, as [main] leaves it after [touch]. *)
Definition demo_world : world :=
  World (fun _ _ => Returns tt)
    (fun _ => Returns ["org.freedesktop.DBus"; "org.mpris.MediaPlayer2.vlc"])
    (fun _ _ => Returns "Playing")
    (fun _ n => Returns (1000000 * Z.of_nat n))
    (fun _ _ => Returns
       (Metadata (Some "Song") (Some ["Band"])
          (Some "file:///music/song.mp3")))
    (fun _ _ _ => Returns tt) (fun _ _ => Returns tt)
    (fun n => inject_Z (Z.of_nat n))
    (fun _ _ => LrcLines []) (fun s => s).

(** ** The transcription tool ([src/main.py]) *)





(** The line feed. *)
Definition newline : string := String (ascii_of_nat 10) EmptyString.



(** ** Saving and reopening ([main] of [src/lrc_editor.py]) *)

(** ['\n'.join(ls)] *)
Fixpoint join_lines (ls : list string) : string :=
  match ls with
  | [] => EmptyString
  | l :: ls' =>
      match ls' with
      | [] => l
      | _ :: _ => l ++ newline ++ join_lines ls'
      end
  end.

(** The 7-bit characters at which [str.splitlines] cuts: LF, VT, FF, CR,
    FS, GS and RS. *)
Definition is_linebreak (c : ascii) : bool :=
  let n := nat_of_ascii c in
  ((10 <=? n)%nat && (n <=? 13)%nat) || ((28 <=? n)%nat && (n <=? 30)%nat).

(** [s.splitlines()]: CR LF counts as one break, and a break at the very
    end opens no further line. *)
Fixpoint splitlines (s : string) : list string :=
  match s with
  | EmptyString => []
  | String c s' =>
      if is_linebreak c then
        EmptyString ::
        match s' with
        | String c' s'' =>
            if Ascii.eqb c (ascii_of_nat 13) && Ascii.eqb c' (ascii_of_nat 10)
            then splitlines s'' else splitlines s'
        | EmptyString => []
        end
      else
        match splitlines s' with
        | [] => [String c EmptyString]
        | l :: ls => String c l :: ls
        end
  end.

(** Reading in text mode: CR LF and a lone CR arrive as LF. *)
Fixpoint universal_newlines (s : string) : string :=
  match s with
  | EmptyString => EmptyString
  | String c s' =>
      if Ascii.eqb c (ascii_of_nat 13) then
        String (ascii_of_nat 10)
          match s' with
          | String c' s'' =>
              if Ascii.eqb c' (ascii_of_nat 10) then universal_newlines s''
              else universal_newlines s'
          | EmptyString => EmptyString
          end
      else String c (universal_newlines s')
  end.

(** [f.readlines()] on the text read: every line keeps its LF. *)
Fixpoint readlines (s : string) : list string :=
  match s with
  | EmptyString => []
  | String c s' =>
      if Ascii.eqb c (ascii_of_nat 10) then
        String c EmptyString :: readlines s'
      else
        match readlines s' with
        | [] => [String c EmptyString]
        | l :: ls => String c l :: ls
        end
  end.

(** The lines [main] starts with on a file that holds [text]:
    [content = f.read().splitlines()], then
    [content if content else ['']]. *)
Definition open_text (text : string) : list string :=
  match splitlines (universal_newlines text) with
  | [] => [EmptyString]
  | content => content
  end.

(** The lines [main] starts with on the file that it wrote for [ls], with
    [f.write('\n'.join(ls))]. *)
Definition reopen (ls : list string) : list string :=
  open_text (join_lines ls).

(** ** Notions used in the proofs *)

(** Every character of [s] satisfies [P]. *)
Fixpoint string_forall (P : ascii -> bool) (s : string) : bool :=
  match s with
  | EmptyString => true
  | String a s' => P a && string_forall P s'
  end.

(** The number read from the digits of [s], after [acc]. *)
Fixpoint dfold (acc : N) (s : string) : N :=
  match s with
  | EmptyString => acc
  | String a s' => dfold (acc * 10 + PyStr.digit_val a) s'
  end.


(** The document is untouched and the clock has not gone back. *)
Definition quiet (s s' : machine) : Prop :=
  lines (ed s') = lines (ed s) /\
  current_line (ed s') = current_line (ed s) /\
  modified (ed s') = modified (ed s) /\
  (clock s <= clock s')%nat.

(** [m] is quiet from every state, whatever it returns. *)
Definition keeps {A} (m : M A) : Prop := forall s, quiet s (snd (m s)).


(** No line passes the test [timestamp >= 0]. *)
Definition untimed (s : machine) : Prop := has_timestamps (lines (ed s)) = false.

(** On a document without timestamps, [m] returns a value satisfying [P]
    and leaves the document alone. *)
Definition calm {A} (P : A -> Prop) (m : M A) : Prop :=
  forall s, untimed s ->
    exists a, fst (m s) = Val a /\ P a /\ quiet s (snd (m s)).

(** The characters of a formatted number: digits, the sign and the point. *)
Definition stampchar (c : ascii) : bool :=
  PyStr.is_digit c || Ascii.eqb c "-" || Ascii.eqb c ".".

(** Whenever [m] returns from a state whose cursor is on a line, it leaves
    the cursor on a line. *)
Definition keeps_cursor {A} (m : M A) : Prop :=
  forall s r s', cursor_ok (ed s) -> m s = (Val r, s') -> cursor_ok (ed s').

(** The keys that do not load a lyric file: all but [l] and [e]. *)
Definition editing_key (k : key) : bool :=
  match k with
  | Key_l | Key_e => false
  | _ => true
  end.






(** The document is untouched and Edit mode, once on, stays on. *)
Definition steady (s s' : machine) : Prop :=
  quiet s s' /\ (edit_mode (ed s) = true -> edit_mode (ed s') = true).

(** [m] is steady from every state, whatever it returns. *)
Definition stays {A} (m : M A) : Prop := forall s, steady s (snd (m s)).

(** No character of the line is a line break. *)
Definition one_line (l : string) : bool :=
  string_forall (fun c => negb (is_linebreak c)) l.

(** [ls] with an empty line between every two lines. *)
Fixpoint spaced (ls : list string) : list string :=
  match ls with
  | [] => []
  | l :: ls' =>
      match ls' with
      | [] => [l]
      | _ :: _ => l :: EmptyString :: spaced ls'
      end
  end.

(** The text of a file in which every line of [ls] ends with LF. *)
Fixpoint file_text (ls : list string) : string :=
  match ls with
  | [] => EmptyString
  | l :: ls' => l ++ newline ++ file_text ls'
  end.

(** The cursor is on a line and no line of the document holds a line
    break. *)
Definition tidy (e : editor) : Prop :=
  cursor_ok e /\ Forall (fun l => one_line l = true) (lines e).

(** Whenever [m] returns from a tidy state, it leaves a tidy state. *)
Definition keeps_tidy {A} (m : M A) : Prop :=
  forall s r s', tidy (ed s) -> m s = (Val r, s') -> tidy (ed s').

(** * Strings and digits *)

Lemma string_forall_app P a b :
  string_forall P (a ++ b) = string_forall P a && string_forall P b.
Proof. induction a as [|c a IH]; simpl; [done|]. rewrite IH. by destruct (P c). Qed.

Lemma index_none P c s :
  string_forall P s = true -> P c = false -> PyStr.index c s = None.
Proof.
  intros Hs Hc. induction s as [|a s IH]; simpl in *; [done|].
  apply andb_true_iff in Hs as [Ha Hs].
  destruct (Ascii.eqb_spec a c) as [->|_]; [congruence|].
  by rewrite IH.
Qed.

Lemma index_app c a b :
  PyStr.index c a = None ->
  PyStr.index c (a ++ String c b) = Some (String.length a).
Proof.
  induction a as [|x a IH]; simpl.
  - by rewrite Ascii.eqb_refl.
  - destruct (Ascii.eqb x c); [done|].
    destruct (PyStr.index c a); [done|]. intros _. by rewrite IH.
Qed.

Lemma substring_prefix a b :
  String.substring 0 (String.length a) (a ++ b) = a.
Proof. induction a as [|x a IH]; simpl; [by destruct b|]. by rewrite IH. Qed.





Lemma string_forall_impl (P Q : ascii -> bool) s :
  (forall c, P c = true -> Q c = true) ->
  string_forall P s = true -> string_forall Q s = true.
Proof.
  intros HPQ. induction s as [|x s IH]; simpl; [done|].
  intros [Hx Hs]%andb_true_iff. by rewrite HPQ, IH.
Qed.

Lemma append_assoc (a b c : string) : (a ++ b) ++ c = a ++ (b ++ c).
Proof. induction a as [|x a IH]; simpl; congruence. Qed.

Lemma append_nil_r (a : string) : a ++ EmptyString = a.
Proof. induction a as [|x a IH]; simpl; congruence. Qed.

Lemma length_append (a b : string) :
  String.length (a ++ b) = (String.length a + String.length b)%nat.
Proof. induction a as [|x a IH]; simpl; congruence. Qed.

Lemma digit_char_is_digit d : (d < 10)%N -> PyStr.is_digit (PyStr.digit_char d) = true.
Proof.
  intros H. assert (In d (map N.of_nat (seq 0 10))) as Hin.
  { apply in_map_iff. exists (N.to_nat d). split; [lia|]. apply in_seq. lia. }
  clear H; revert d Hin. apply List.Forall_forall. vm_compute. repeat constructor.
Qed.

Lemma digit_val_char d : (d < 10)%N -> PyStr.digit_val (PyStr.digit_char d) = d.
Proof.
  intros H. assert (In d (map N.of_nat (seq 0 10))) as Hin.
  { apply in_map_iff. exists (N.to_nat d). split; [lia|]. apply in_seq. lia. }
  clear H; revert d Hin. apply List.Forall_forall. vm_compute. repeat constructor.
Qed.

Lemma dfold_app acc a b : dfold acc (a ++ b) = dfold (dfold acc a) b.
Proof. revert acc. induction a as [|x a IH]; simpl; [done|]. intros. by rewrite IH. Qed.

Lemma dfold_one a d : (d < 10)%N ->
  dfold a (String (PyStr.digit_char d) EmptyString) = (a * 10 + d)%N.
Proof. intros H. cbn [dfold]. by rewrite digit_val_char. Qed.

Lemma digits_fuel_small fuel n acc :
  (n < 10)%N ->
  exists ds, digits_fuel fuel n acc = ds ++ acc /\
             string_forall PyStr.is_digit ds = true /\
             ds <> EmptyString /\
             forall a, dfold a ds = (a * 10 ^ N.of_nat (String.length ds) + n)%N.
Proof.
  intros Hlt. exists (String (PyStr.digit_char n) EmptyString).
  repeat split.
  - assert (n / 10 = 0)%N as Hz by (apply N.div_small; lia).
    destruct fuel; cbn [digits_fuel]; rewrite ?Hz, N.mod_small by done; done.
  - cbn [string_forall]. by rewrite digit_char_is_digit.
  - done.
  - intros a. rewrite dfold_one by done. cbn [String.length].
    change (10 ^ N.of_nat 1)%N with 10%N. done.
Qed.

Lemma digits_fuel_spec fuel : forall n acc,
  (n < 10 ^ N.of_nat (S fuel))%N ->
  exists ds, digits_fuel fuel n acc = ds ++ acc /\
             string_forall PyStr.is_digit ds = true /\
             ds <> EmptyString /\
             forall a, dfold a ds = (a * 10 ^ N.of_nat (String.length ds) + n)%N.
Proof.
  induction fuel as [|fuel IH]; intros n acc Hn.
  - apply digits_fuel_small. exact Hn.
  - destruct (N.eqb_spec (n / 10) 0) as [Hz|Hnz].
    + apply digits_fuel_small. apply N.div_small_iff in Hz; lia.
    + cbn [digits_fuel]. apply N.eqb_neq in Hnz. rewrite Hnz.
      destruct (IH (n / 10)%N (String (PyStr.digit_char (n mod 10)) acc))
        as (ds & Hds & Hall & Hne & Hval).
      { replace (N.of_nat (S (S fuel))) with (N.succ (N.of_nat (S fuel))) in Hn by lia.
        rewrite N.pow_succ_r' in Hn. apply N.Div0.div_lt_upper_bound. lia. }
      exists (ds ++ String (PyStr.digit_char (n mod 10)) EmptyString).
      assert (n mod 10 < 10)%N as Hm by (apply N.mod_lt; lia).
      repeat split.
      * rewrite Hds. by rewrite append_assoc.
      * rewrite string_forall_app, Hall. cbn [string_forall].
        by rewrite digit_char_is_digit.
      * by destruct ds.
      * intros a. rewrite dfold_app, Hval, dfold_one by done.
        rewrite length_append. cbn [String.length].
        replace (N.of_nat (String.length ds + 1)) with (N.succ (N.of_nat (String.length ds))) by lia.
        rewrite N.pow_succ_r'.
        pose proof (N.div_mod n 10). lia.
Qed.

Lemma str_of_N_spec n :
  string_forall PyStr.is_digit (str_of_N n) = true /\
  str_of_N n <> EmptyString /\
  forall a, dfold a (str_of_N n) = (a * 10 ^ N.of_nat (String.length (str_of_N n)) + n)%N.
Proof.
  destruct (digits_fuel_spec (N.to_nat (N.log2 n)) n EmptyString) as (ds & Hds & H).
  - destruct (N.eq_dec n 0%N) as [->|Hn]; [done|].
    apply N.lt_le_trans with (2 ^ N.succ (N.log2 n))%N.
    + apply N.log2_spec. lia.
    + replace (N.of_nat (S (N.to_nat (N.log2 n)))) with (N.succ (N.log2 n)) by lia.
      apply N.pow_le_mono_l. lia.
  - unfold str_of_N. rewrite Hds.
    rewrite append_nil_r.
    done.
Qed.

Lemma zfill_spec w s :
  string_forall PyStr.is_digit s = true ->
  string_forall PyStr.is_digit (zfill w s) = true /\
  (s <> EmptyString -> zfill w s <> EmptyString) /\
  dfold 0 (zfill w s) = dfold 0 s.
Proof.
  intros Hs. unfold zfill.
  induction (w - String.length s)%nat as [|k IH]; simpl; [done|].
  destruct IH as (H1 & H2 & H3). repeat split; [done..|].
  exact H3.
Qed.

(** * Parsing decimal literals *)








(** * Formatting, and the round trip *)





Section Roundtrip.
Variables (m k : Z).
Hypothesis Hk : 0 <= k < 6000.




End Roundtrip.






Example format_timestamp_125_4 : format_timestamp (1254 # 10) = "[02:05.40]".
Proof. reflexivity. Qed.

Example extract_timestamp_hello :
  exists q, extract_timestamp "[01:30.00]hello" = PFin q /\ (q == 90)%Q.
Proof. eexists. split; reflexivity. Qed.

Example extract_timestamp_no_bracket :
  extract_timestamp "no bracket" = PFin (-1).
Proof. reflexivity. Qed.

(** * Calls that leave the document alone *)

Lemma quiet_refl s : quiet s s.
Proof. by repeat split. Qed.

Lemma quiet_trans s1 s2 s3 : quiet s1 s2 -> quiet s2 s3 -> quiet s1 s3.
Proof.
  intros (H1 & H2 & H3 & H4) (K1 & K2 & K3 & K4).
  repeat split; try congruence. lia.
Qed.

Lemma keeps_ret {A} (a : A) : keeps (ret a).
Proof. intros s. apply quiet_refl. Qed.

Lemma keeps_raise {A} e : keeps (@raise A e).
Proof. intros s. apply quiet_refl. Qed.

Lemma keeps_self : keeps self.
Proof. intros s. apply quiet_refl. Qed.

Lemma keeps_or_raise {A} e (o : option A) : keeps (or_raise e o).
Proof. destruct o; [apply keeps_ret | apply keeps_raise]. Qed.

Lemma keeps_bind {A B} (m : M A) (k : A -> M B) :
  keeps m -> (forall a, keeps (k a)) -> keeps (bind m k).
Proof.
  intros Hm Hk s. unfold bind. specialize (Hm s).
  destruct (m s) as [[a|e] s']; simpl in *; [|done].
  eapply quiet_trans; [exact Hm|apply Hk].
Qed.

Lemma keeps_try_except {A} (m h : M A) :
  keeps m -> keeps h -> keeps (try_except m h).
Proof.
  intros Hm Hh s. unfold try_except. specialize (Hm s).
  destruct (m s) as [[a|e] s']; simpl in *; [done|].
  eapply quiet_trans; [exact Hm|apply Hh].
Qed.

Lemma keeps_call {A} (o : nat -> reply A) : keeps (call o).
Proof.
  intros s. unfold call. destruct (o (clock s)); repeat split; simpl; lia.
Qed.

Lemma keeps_ask {A} (o : nat -> A) : keeps (ask o).
Proof. intros s. repeat split; simpl; lia. Qed.

Lemma keeps_assign f :
  (forall e, lines (f e) = lines e /\ current_line (f e) = current_line e /\
             modified (f e) = modified e) ->
  keeps (assign f).
Proof. intros Hf s. destruct (Hf (ed s)) as (?&?&?). by repeat split. Qed.

Create HintDb keeps.
#[local] Hint Resolve keeps_ret keeps_raise keeps_self keeps_or_raise
  keeps_call keeps_ask : keeps.

Ltac keeps_step :=
  match goal with
  | |- keeps (bind _ _) => apply keeps_bind; [|intros ?]
  | |- keeps (try_except _ _) => apply keeps_try_except
  | |- keeps (assign _) => apply keeps_assign; intros ?; by repeat split
  | |- keeps (match ?x with _ => _ end) => destruct x
  | |- keeps (if ?b then _ else _) => destruct b
  | |- keeps _ => solve [auto with keeps]
  end.

Section Bus.
Variable w : world.

Lemma keeps_update_metadata : keeps (_update_metadata w).
Proof. unfold _update_metadata. repeat keeps_step. Qed.

Lemma keeps_get_playback_status : keeps (get_playback_status w).
Proof. unfold get_playback_status. repeat keeps_step. Qed.

#[local] Hint Resolve keeps_update_metadata keeps_get_playback_status : keeps.

Lemma keeps_connect_player : keeps (connect_player w).
Proof. unfold connect_player. repeat keeps_step. Qed.

#[local] Hint Resolve keeps_connect_player : keeps.

Lemma keeps_not_connected : keeps (not_connected w).
Proof. unfold not_connected. repeat keeps_step. Qed.

#[local] Hint Resolve keeps_not_connected : keeps.

Lemma keeps_get_player_position : keeps (get_player_position w).
Proof. unfold get_player_position. repeat keeps_step. Qed.

Lemma keeps_seek_relative o : keeps (seek_relative w o).
Proof. unfold seek_relative. repeat keeps_step. Qed.

Lemma keeps_restart_playback : keeps (restart_playback w).
Proof. unfold restart_playback. repeat keeps_step. Qed.

Lemma keeps_get_relative_time : keeps (get_relative_time w).
Proof. unfold get_relative_time. repeat keeps_step. Qed.

(** A handler that returns makes the whole [try] return. *)
Lemma try_except_ret {A} (m : M A) (a : A) s :
  exists v, fst (try_except m (ret a) s) = Val v.
Proof.
  unfold try_except. destruct (m s) as [[v|e] s']; simpl; eauto.
Qed.

Lemma get_player_position_returns s :
  exists q, fst (get_player_position w s) = Val q.
Proof. apply try_except_ret. Qed.

Lemma get_player_position_value s :
  exists q s', get_player_position w s = (Val q, s').
Proof.
  destruct (get_player_position_returns s) as [q Hq].
  destruct (get_player_position w s) as [r s']. simpl in Hq. subst r.
  by exists q, s'.
Qed.

End Bus.

(** * The position query *)

Section Position.
Variable w : world.

(** [get_playback_status] says "Playing" only when the player said so. *)
Lemma get_playback_status_playing s s' :
  get_playback_status w s = (Val "Playing", s') ->
  exists p, current_player (ed s) = Some p /\
            PlaybackStatus w p (clock s) = Returns "Playing" /\
            s' = Machine (ed s) (S (clock s)).
Proof.
  unfold get_playback_status, try_except, bind, self, call, ret.
  destruct (current_player (ed s)) as [p|]; [|discriminate].
  destruct (PlaybackStatus w p (clock s)) as [a|] eqn:E; [|discriminate].
  intros [= -> <-]. eauto.
Qed.

Lemma update_metadata_returns s : fst (_update_metadata w s) = Val tt.
Proof.
  unfold _update_metadata, try_except.
  match goal with |- context [match ?m s with _ => _ end] =>
    destruct (m s) as [[[]|e] s'] end; done.
Qed.

(** C9. [get_player_position] always returns a number and never raises:
    the sentinel [-1], or the position in seconds; the latter only when,
    during this call, the player reported the status "Playing" and then
    answered the position and the metadata requests.  So a status other
    than "Playing", no reachable player, or any raising call gives [-1]. *)
Theorem get_player_position_sentinel (s : machine) :
  exists q s', get_player_position w s = (Val q, s') /\
    (q = (-1)%Q \/
     exists p t us, (clock s <= t)%nat /\
       PlaybackStatus w p t = Returns "Playing" /\
       Position w p (S t) = Returns us /\
       GetMetadata w p (S (S t)) <> Raises /\
       q = (inject_Z us / 1000000)%Q).
Proof.
  unfold get_player_position, try_except.
  match goal with |- context [match ?m s with _ => _ end] =>
    destruct (m s) as [[q|e] s'] eqn:E end;
    [|by eexists _, _; split; [reflexivity|left]].
  exists q, s'. split; [done|].
  unfold bind at 1 in E.
  pose proof (keeps_not_connected w s) as Hq.
  destruct (not_connected w s) as [[nc|e] s1]; [|discriminate].
  destruct Hq as (_ & _ & _ & Hclock). simpl in Hclock.
  destruct nc; [left; by injection E|].
  unfold bind at 1 in E.
  destruct (get_playback_status w s1) as [[st|e] s2] eqn:E2; [|discriminate].
  destruct (String.eqb_spec st "Playing") as [->|Hne];
    [|left; by injection E].
  apply get_playback_status_playing in E2 as (p & Hp & Hst & ->).
  cbn [negb] in E. unfold bind at 1 in E. unfold self at 1 in E.
  cbn [ed] in E. rewrite Hp in E. unfold bind at 1 in E.
  unfold or_raise, ret at 1 in E. unfold bind at 1 in E.
  unfold call at 1 in E. cbn [clock ed] in E.
  destruct (Position w p (S (clock s1))) as [us|] eqn:Epos; [|discriminate].
  unfold bind at 1 in E. unfold call at 1 in E. cbn [clock ed] in E.
  destruct (GetMetadata w p (S (S (clock s1)))) as [md|] eqn:Emd;
    [|discriminate].
  right. exists p, (clock s1), us. repeat split; [done..|congruence|].
  unfold bind at 1 in E. unfold self at 1 in E. cbn [ed] in E.
  unfold bind at 1 in E.
  match type of E with context [match ?m with _ => _ end] =>
    destruct m as [[[]|e] s3] eqn:E3 end.
  - by injection E.
  - exfalso. destruct (_ || _) in E3.
    + pose proof (update_metadata_returns
        {| ed := ed s1; clock := S (S (S (clock s1))) |}) as Hr.
      rewrite E3 in Hr. discriminate.
    + discriminate.
Qed.

End Position.

(** * The closest-line scan *)








Example closest_of_three :
  snd (closest_scan 24 ["[00:10.00]a"; "[00:20.00]b"; "[00:30.00]c"] 0
         (PInf, 0)) = 1.
Proof. by vm_compute. Qed.

Lemma closest_scan_none position ls : forall i best,
  (forall line, line ∈ ls -> ~ finite_timestamp line) ->
  closest_scan position ls i (PInf, best) = (PInf, best).
Proof.
  induction ls as [|line ls IH]; intros i best Hno; [done|].
  cbn [closest_scan].
  assert (~ finite_timestamp line) as Hl by (apply Hno; left).
  destruct (extract_timestamp line) as [q| | |] eqn:Ets; simpl.
  - destruct (Qle_bool 0 q) eqn:Hge.
    + exfalso. apply Hl. exists q. split; [done|]. by apply Qle_bool_iff.
    + apply IH. intros l Hin. apply Hno. by right.
  - apply IH. intros l Hin. apply Hno. by right.
  - apply IH. intros l Hin. apply Hno. by right.
  - apply IH. intros l Hin. apply Hno. by right.
Qed.

(** * Synchronising a document without timestamps *)

(** ** Documents without timestamps *)






Lemma calm_weaken {A} (P Q : A -> Prop) m :
  (forall a, P a -> Q a) -> calm P m -> calm Q m.
Proof.
  intros HPQ Hm s Hs. destruct (Hm s Hs) as (a & ? & ? & ?).
  exists a. auto.
Qed.

Section Sync.
Variable w : world.







(** What [move_to_closest_timestamp] does once the position is known. *)
Lemma move_to_closest_timestamp_unfold s q s1 :
  get_player_position w s = (Val q, s1) ->
  move_to_closest_timestamp w s =
  if negb (Qle_bool 0 q) then (Val None, s1)
  else
    let c := snd (closest_scan q (lines (ed s1)) 0
                    (PInf, current_line (ed s1))) in
    if negb (c =? current_line (ed s1))
    then (Val (Some true), Machine (set_current_line c (ed s1)) (clock s1))
    else (Val (Some false), s1).
Proof.
  intros Hp. unfold move_to_closest_timestamp. unfold bind at 1. rewrite Hp.
  destruct (negb (Qle_bool 0 q)); [done|].
  unfold bind, self. cbv zeta.
  by destruct (negb (_ =? _)).
Qed.

End Sync.

(** * Editing at the cursor *)

Lemma norm_index_nonneg {A} (l : list A) i :
  0 <= i < Z.of_nat (length l) -> PyList.norm_index l i = Some (Z.to_nat i).
Proof.
  intros H. unfold PyList.norm_index.
  destruct (Z.leb_spec 0 i); [|lia]. destruct (Z.ltb_spec i (Z.of_nat (length l))); [done|lia].
Qed.


Section Edit.
Variable w : world.

(** [add_timestamp] once the position is known: the new text of the cursor
    line, or [IndexError] when the line opens a bracket and never closes
    it. *)
Lemma add_timestamp_spec s q s1 line :
  get_player_position w s = (Val q, s1) ->
  0 <= current_line (ed s) ->
  lines (ed s) !! Z.to_nat (current_line (ed s)) = Some line ->
  let cur := current_line (ed s) in
  let ts := format_timestamp q in
  let new :=
    if PyStr.startswith "[" line
    then String.append ts <$> PyStr.split1 "]" line !! 1%nat
    else Some (ts ++ line) in
  match new with
  | Some text =>
      exists s', add_timestamp w s = (Val true, s') /\
        lines (ed s') =
          (<[Z.to_nat cur := text]> (lines (ed s)) ++
           if cur =? Z.of_nat (length (lines (ed s))) - 1 then [EmptyString] else [])%list /\
        current_line (ed s') = cur + 1 /\
        modified (ed s') = true
  | None =>
      fst (add_timestamp w s) = Exc IndexError /\
      document (ed (snd (add_timestamp w s))) = document (ed s) /\
      modified (ed (snd (add_timestamp w s))) = modified (ed s)
  end.
Proof.
  intros Hp Hcur Hline cur ts new.
  pose proof (keeps_get_player_position w s) as Hq. rewrite Hp in Hq.
  destruct Hq as (Hl & Hc & Hm & _). cbn [snd] in *.
  assert (0 <= cur < Z.of_nat (length (lines (ed s)))) as Hrange.
  { apply lookup_lt_Some in Hline. subst cur. lia. }
  destruct (add_timestamp w s) as [r s'] eqn:E.
  unfold add_timestamp in E. unfold bind at 1 in E. rewrite Hp in E.
  fold ts in E. clearbody ts.
  destruct s1 as [[l1 cl1 m1 ? ? ? ? ? ? ?] c1].
  cbn [ed lines current_line modified] in Hl, Hc, Hm. fold cur in Hc.
  subst l1 cl1 m1.
  unfold bind at 1 in E. unfold ask at 1 in E. cbn [ed clock] in E.
  unfold bind at 1 in E. unfold assign at 1 in E. cbn [ed clock] in E.
  unfold bind at 1 in E. unfold self at 1 in E. cbn [ed clock] in E.
  cbn [set_last lines current_line] in E.
  unfold PyList.getitem, PyList.setitem in E.
  rewrite (norm_index_nonneg _ _ Hrange) in E. cbn [mbind option_bind] in E.
  fold cur in Hline. rewrite Hline in E.
  unfold bind at 1 in E. cbn [or_raise ret] in E.
  subst new. destruct (PyStr.startswith "[" line).
  - destruct (PyStr.split1 "]" line !! 1%nat) as [rest|];
      cbn [fmap option_fmap option_map].
    + unfold bind, assign, self, ret, or_raise in E. cbn in E.
      rewrite length_insert in E.
      destruct (Z.ltb_spec cur (Z.of_nat (length (lines (ed s))) - 1)),
               (Z.eqb_spec cur (Z.of_nat (length (lines (ed s))) - 1));
        try lia; injection E as <- <-; eexists; (split; [reflexivity|]); cbn;
        rewrite ?app_nil_r; done.
    + unfold bind, raise, or_raise in E. cbn in E. injection E as <- <-.
      done.
  - unfold bind, assign, self, ret, or_raise in E. cbn in E.
    rewrite length_insert in E.
    destruct (Z.ltb_spec cur (Z.of_nat (length (lines (ed s))) - 1)),
             (Z.eqb_spec cur (Z.of_nat (length (lines (ed s))) - 1));
      try lia; injection E as <- <-; eexists; (split; [reflexivity|]); cbn;
      rewrite ?app_nil_r; done.
Qed.

End Edit.

(** C6, amended. When the cursor line is not empty and does not start
    with "[", [remove_timestamp] changes nothing: the lines, the cursor and
    the modified flag are as before. *)
Theorem remove_timestamp_plain_line (s : machine) (line : string) :
  PyList.getitem (lines (ed s)) (current_line (ed s)) = Some line ->
  line <> EmptyString ->
  PyStr.startswith "[" line = false ->
  remove_timestamp s = (Val tt, s).
Proof.
  intros Hline Hne Hplain. unfold remove_timestamp, bind, self.
  rewrite Hline. cbn [or_raise ret].
  apply String.eqb_neq in Hne. by rewrite Hne, Hplain.
Qed.

Lemma remove_timestamp_plain_line_witness :
  remove_timestamp (Machine (set_lines ["hello"] init_editor) 0) =
  (Val tt, Machine (set_lines ["hello"] init_editor) 0).
Proof.
  apply (remove_timestamp_plain_line _ "hello"); [reflexivity|discriminate|reflexivity].
Defined.

(** C6 as stated fails: the line "[chorus]la" is not empty and
    [extract_timestamp] gives the sentinel for it, yet [remove_timestamp]
    strips the bracket and sets the modified flag. *)
Lemma remove_timestamp_bracket_counterexample : ~ untimed_line_kept.
Proof.
  intros H.
  specialize (H (Machine (set_lines ["[chorus]la"] init_editor) 0) "[chorus]la").
  discriminate H; [reflexivity|discriminate|reflexivity].
Qed.

(** C5. On a document whose only line is empty, [remove_timestamp] is a
    no-op: it returns with the state unchanged. *)
Theorem remove_timestamp_only_empty_line (s : machine) :
  lines (ed s) = [EmptyString] -> current_line (ed s) = 0 ->
  remove_timestamp s = (Val tt, s).
Proof.
  intros Hl Hc. unfold remove_timestamp, bind, self. by rewrite Hl, Hc.
Qed.

Lemma remove_timestamp_only_empty_line_witness :
  remove_timestamp (Machine (set_lines [EmptyString] init_editor) 0) =
  (Val tt, Machine (set_lines [EmptyString] init_editor) 0).
Proof. apply remove_timestamp_only_empty_line; reflexivity. Defined.

(** C7 as stated fails: moving the cursor down changes the document and
    leaves the modified flag unset. *)
Lemma cursor_down_counterexample : ~ sets_modified cursor_down.
Proof.
  intros H.
  specialize (H (Machine (set_lines ["a"; "b"] init_editor) 0)).
  discriminate H. discriminate.
Qed.

Lemma sets_modified_remove_timestamp : sets_modified remove_timestamp.
Proof.
  intros s. unfold remove_timestamp, bind, self, assign, or_raise, ret, raise.
  repeat case_match; simplify_eq; cbn; try done.
Qed.

Lemma sets_modified_add_timestamp w : sets_modified (add_timestamp w).
Proof.
  intros s.
  destruct (get_player_position_returns w s) as [q Hq].
  pose proof (keeps_get_player_position w s) as (Hl & Hc & _).
  destruct (add_timestamp w s) as [r s'] eqn:E.
  unfold add_timestamp in E. unfold bind at 1 in E.
  destruct (get_player_position w s) as [rp s1]. cbn [fst snd] in *. subst rp.
  generalize dependent (format_timestamp q). intros ts E.
  unfold document. rewrite <- Hl, <- Hc. clear Hl Hc.
  unfold bind, self, assign, ask, or_raise, ret, raise in E.
  repeat case_match; simplify_eq; cbn; try done.
Qed.

(** C7, amended. Whenever [add_timestamp] or [remove_timestamp] (clearing
    a timestamp or deleting an empty line) changes the document, the
    modified flag is set; moving the cursor changes neither the lines nor
    the modified flag; and [main] writes the file exactly when [run]
    returned "save" and the modified flag is set. *)
Theorem edits_set_modified :
  (forall w, sets_modified (add_timestamp w)) /\
  sets_modified remove_timestamp /\
  (forall s, let s' := snd (cursor_down s) in
     lines (ed s') = lines (ed s) /\ modified (ed s') = modified (ed s)) /\
  (forall s, let s' := snd (cursor_up s) in
     lines (ed s') = lines (ed s) /\ modified (ed s') = modified (ed s)) /\
  (forall r e, main_writes r e = true <-> r = Some Save /\ modified e = true).
Proof.
  split; [apply sets_modified_add_timestamp|].
  split; [apply sets_modified_remove_timestamp|].
  split; [done|]. split; [done|].
  intros [[]|] e; simpl; split; try done; by intros [].
Qed.

(** C4, at the failing input. On the one-line document ["[intro"], with the
    cursor on that last line, [add_timestamp] raises [IndexError] in every
    environment: no line is appended and the cursor does not move. *)
Theorem add_timestamp_unclosed_bracket (w : world) (t : nat) :
  let s := Machine (set_lines ["[intro"] init_editor) t in
  fst (add_timestamp w s) = Exc IndexError /\
  lines (ed (snd (add_timestamp w s))) = ["[intro"] /\
  current_line (ed (snd (add_timestamp w s))) = 0.
Proof.
  intros s.
  destruct (get_player_position_value w s) as (q & s1 & Hp).
  pose proof (add_timestamp_spec w s q s1 "[intro" Hp) as H.
  cbv zeta in H. cbn in H. destruct H as (H1 & H2 & _); [done..|].
  unfold document in H2. cbn in H2. injection H2 as H2 H3. done.
Qed.

(** C10, at the failing input. With no player the position is [-1], which
    formats as "[-1:59.00]"; on the line "[intro" [add_timestamp] then raises
    [IndexError] instead of returning [True]: nothing is written and the
    modified flag stays unset. *)
Theorem add_timestamp_unavailable_unclosed_bracket :
  let s := Machine (set_lines ["[intro"] init_editor) 0 in
  fst (get_player_position silent_world s) = Val (-1)%Q /\
  format_timestamp (-1) = "[-1:59.00]" /\
  fst (add_timestamp silent_world s) = Exc IndexError /\
  lines (ed (snd (add_timestamp silent_world s))) = ["[intro"] /\
  modified (ed (snd (add_timestamp silent_world s))) = false.
Proof. vm_compute. repeat split. Qed.

(** C8, at the failing input. After [main] has started on the empty lyric
    file of the playing track, the key [e] reloads that file and leaves a
    document with no line at all, whose cursor [0] designates nothing. *)
Theorem load_empties_document :
  exists s, reachable demo_world s /\ lines (ed s) = [] /\ ~ cursor_ok (ed s).
Proof.
  set (s0 := snd (main_start demo_world [] (Machine init_editor 0))).
  exists (snd (run demo_world [Some Key_e] s0)). split; [|split].
  - exists [], 0%nat, s0, [Some Key_e]. split; vm_compute; reflexivity.
  - vm_compute. reflexivity.
  - intros [H _]. vm_compute in H. lia.
Qed.

(** [main] itself starts with at least one line and the cursor on it. *)
Lemma main_start_cursor_ok w content t0 :
  exists s0, main_start w content (Machine init_editor t0) = (Val tt, s0) /\
             cursor_ok (ed s0).
Proof.
  unfold main_start, bind.
  destruct (get_player_position_value w (Machine init_editor t0))
    as (q & s1 & Hp).
  pose proof (keeps_get_player_position w (Machine init_editor t0))
    as (_ & Hc & _).
  rewrite Hp in *. cbn [snd] in Hc. eexists. split; [reflexivity|].
  unfold cursor_ok. cbn. rewrite Hc. cbn.
  destruct content; cbn; lia.
Qed.

(** * Searching and ticking *)






(** * The shape of a timestamp *)

Lemma index_app_none c a b :
  PyStr.index c a = None -> PyStr.index c b = None ->
  PyStr.index c (a ++ b) = None.
Proof.
  intros Ha Hb. induction a as [|x a IH]; simpl in *; [done|].
  destruct (Ascii.eqb x c); [done|].
  destruct (PyStr.index c a); [done|]. by rewrite IH.
Qed.

Lemma split1_app c a b :
  PyStr.index c a = None -> PyStr.split1 c (a ++ String c b) = [a; b].
Proof.
  induction a as [|x a IH]; simpl.
  - by rewrite Ascii.eqb_refl.
  - destruct (Ascii.eqb x c); [done|].
    destruct (PyStr.index c a); [done|]. intros _. by rewrite IH.
Qed.

Lemma digit_stampchar c : PyStr.is_digit c = true -> stampchar c = true.
Proof. unfold stampchar. by intros ->. Qed.

Lemma zfill_stampchars w n :
  string_forall stampchar (zfill w (str_of_N n)) = true.
Proof.
  destruct (str_of_N_spec n) as (Hd & _ & _).
  destruct (zfill_spec w _ Hd) as (Hz & _ & _).
  by apply (string_forall_impl _ _ _ digit_stampchar).
Qed.

Lemma fmt_02d_stampchars z : string_forall stampchar (fmt_02d z) = true.
Proof.
  unfold fmt_02d. destruct (z <? 0); [cbn [string_forall]|];
    by rewrite ?zfill_stampchars.
Qed.

Lemma fmt_05_2f_stampchars x : string_forall stampchar (fmt_05_2f x) = true.
Proof.
  unfold fmt_05_2f. destruct (Qle_bool 0 x); cbn [string_forall];
    rewrite string_forall_app; cbn [String.append string_forall];
    by rewrite !zfill_stampchars.
Qed.

(** A timestamp is a bracket, a text without bracket or colon around one
    colon, and the closing bracket. *)
Lemma format_timestamp_shape q :
  exists mm ss,
    format_timestamp q = String "[" (mm ++ String ":" (ss ++ "]")) /\
    string_forall stampchar mm = true /\ string_forall stampchar ss = true /\
    mm = fmt_02d (Qfloor (q / 60)) /\
    ss = fmt_05_2f (q - inject_Z (60 * Qfloor (q / 60))).
Proof.
  eexists _, _. split; [reflexivity|].
  split; [apply fmt_02d_stampchars|]. split; [apply fmt_05_2f_stampchars|done].
Qed.

Lemma format_timestamp_inner q :
  exists inner, format_timestamp q = String "[" (inner ++ "]") /\
                PyStr.index "]" inner = None.
Proof.
  destruct (format_timestamp_shape q) as (mm & ss & Hq & Hmm & Hss & _).
  exists (mm ++ String ":" ss). split.
  - rewrite Hq. f_equal. by rewrite append_assoc.
  - apply index_app_none; [by apply (index_none stampchar)|].
    cbn [PyStr.index]. change (Ascii.eqb ":" "]") with false. cbn iota.
    by rewrite (index_none stampchar "]" ss).
Qed.

(** Cutting a stamped line at the first closing bracket gives back the
    text. *)
Lemma split1_format_timestamp q text :
  PyStr.split1 "]" (format_timestamp q ++ text) !! 1%nat = Some text /\
  PyStr.startswith "[" (format_timestamp q ++ text) = true /\
  format_timestamp q ++ text <> EmptyString.
Proof.
  destruct (format_timestamp_inner q) as (inner & -> & Hin).
  cbn [String.append PyStr.startswith]. split; [|done].
  rewrite append_assoc. cbn [String.append PyStr.split1].
  change (Ascii.eqb "[" "]") with false. cbn iota.
  by rewrite split1_app.
Qed.

(** * What [extract_timestamp] reads *)

(** [extract_timestamp] reads a line up to its first closing bracket. *)
Theorem extract_timestamp_ignores_tail (a r1 r2 : string) :
  PyStr.index "]" a = None ->
  extract_timestamp (a ++ String "]" r1) =
  extract_timestamp (a ++ String "]" r2).
Proof.
  intros Ha. unfold extract_timestamp.
  destruct a as [|x a]; [done|]. cbn [String.append PyStr.startswith].
  destruct (Ascii.eqb "[" x) eqn:Ex; [|done]. cbn [andb negb].
  cbn [PyStr.index] in *. destruct (Ascii.eqb x "]"); [done|].
  destruct (PyStr.index "]" a) eqn:Ea; [done|].
  rewrite !index_app by done. cbn [fmap option_fmap option_map].
  unfold PyStr.slice. cbn [String.substring].
  replace (S (String.length a) - 1)%nat with (String.length a) by lia.
  by rewrite !substring_prefix.
Qed.

Lemma extract_timestamp_ignores_tail_witness :
  extract_timestamp ("[01:30.00" ++ String "]" "hello") =
  extract_timestamp ("[01:30.00" ++ String "]" "world").
Proof. apply extract_timestamp_ignores_tail. reflexivity. Defined.




(** * Formatting and reading back any position *)










(** * Stamping and unstamping a line *)

(** [remove_timestamp] on a line that opens with a bracket and closes it:
    the line becomes what follows the first closing bracket. *)
Lemma remove_timestamp_cut (s : machine) (line text : string) (k : nat) :
  PyList.norm_index (lines (ed s)) (current_line (ed s)) = Some k ->
  lines (ed s) !! k = Some line ->
  PyStr.startswith "[" line = true ->
  PyStr.split1 "]" line !! 1%nat = Some text ->
  remove_timestamp s =
  (Val tt,
   Machine (set_modified true (set_lines (<[k:=text]> (lines (ed s))) (ed s)))
     (clock s)).
Proof.
  intros Hk Hline Hstart Hcut.
  unfold remove_timestamp, bind, self, PyList.getitem, PyList.setitem.
  rewrite Hk. cbn [mbind option_bind]. rewrite Hline. cbn [or_raise ret].
  assert (String.eqb line EmptyString = false) as ->.
  { apply String.eqb_neq. by intros ->. }
  rewrite Hstart.
  assert ((1 <? length (PyStr.split1 "]" line))%nat = true) as ->.
  { apply Nat.ltb_lt. apply lookup_lt_Some in Hcut. lia. }
  rewrite Hcut. reflexivity.
Qed.

(** [remove_timestamp] on a line that begins with a timestamp written by
    [format_timestamp]: the timestamp is taken off and the text after it
    stays; the other lines and the cursor are as they were, and the modified
    flag is set. *)
Theorem remove_timestamp_strips_stamp (s : machine) (q : Q) (text : string)
    (k : nat) :
  PyList.norm_index (lines (ed s)) (current_line (ed s)) = Some k ->
  lines (ed s) !! k = Some (format_timestamp q ++ text) ->
  remove_timestamp s =
  (Val tt,
   Machine (set_modified true (set_lines (<[k:=text]> (lines (ed s))) (ed s)))
     (clock s)).
Proof.
  intros Hk Hline.
  destruct (split1_format_timestamp q text) as (Hcut & Hstart & _).
  by apply (remove_timestamp_cut s (format_timestamp q ++ text)).
Qed.

Lemma remove_timestamp_strips_stamp_witness :
  remove_timestamp
    (Machine (set_lines ["[02:05.40]la la"] init_editor) 0) =
  (Val tt,
   Machine (set_modified true (set_lines ["la la"] init_editor)) 0).
Proof.
  apply (remove_timestamp_strips_stamp
           (Machine (set_lines ["[02:05.40]la la"] init_editor) 0)
           (1254 # 10) "la la" 0%nat); reflexivity.
Defined.





(** * Stamping a line, then looking for it *)




(** * The cursor stays on a line *)

Lemma cursor_ok_quiet s s' : quiet s s' -> cursor_ok (ed s) -> cursor_ok (ed s').
Proof. intros (Hl & Hc & _) H. unfold cursor_ok. by rewrite Hl, Hc. Qed.

Lemma keeps_keeps_cursor {A} (m : M A) : keeps m -> keeps_cursor m.
Proof.
  intros Hk s r s' Hs Hm. eapply cursor_ok_quiet; [|done].
  specialize (Hk s). by rewrite Hm in Hk.
Qed.

Lemma keeps_cursor_bind {A B} (m : M A) (k : A -> M B) :
  keeps_cursor m -> (forall a, keeps_cursor (k a)) -> keeps_cursor (bind m k).
Proof.
  intros Hm Hk s r s' Hs. unfold bind.
  destruct (m s) as [[a|e] s1] eqn:E; [|discriminate].
  intros Hr. eapply Hk; [|done]. by eapply Hm.
Qed.

Lemma keeps_cursor_ret {A} (a : A) : keeps_cursor (ret a).
Proof. by intros s r s' Hs [= _ <-]. Qed.

(** The scan ends on the line it started from or on a line it has read. *)
Lemma closest_scan_range position ls : forall i best,
  snd (closest_scan position ls i best) = snd best \/
  i <= snd (closest_scan position ls i best) < i + Z.of_nat (length ls).
Proof.
  induction ls as [|line ls IH]; intros i best; [by left|].
  cbn [closest_scan length].
  match goal with |- context [closest_scan _ _ _ ?b] => set (best' := b) end.
  destruct (IH (i + 1) best') as [Heq|Hin]; [|right; lia].
  rewrite Heq. subst best'.
  destruct (PyFloat.ge0 _); [|by left].
  destruct (PyFloat.ltb _ _); [right; cbn; lia|by left].
Qed.

Section Keys.
Variable w : world.

Lemma keeps_cursor_move_to_closest_timestamp :
  keeps_cursor (move_to_closest_timestamp w).
Proof.
  intros s r s' Hs Hm.
  destruct (get_player_position_value w s) as (q & s1 & Hp).
  rewrite (move_to_closest_timestamp_unfold w s q s1 Hp) in Hm.
  assert (cursor_ok (ed s1)) as H1.
  { eapply cursor_ok_quiet; [|done].
    pose proof (keeps_get_player_position w s) as Hk. by rewrite Hp in Hk. }
  destruct (negb (Qle_bool 0 q)); [by injection Hm as _ <-|].
  cbv zeta in Hm. destruct (negb (_ =? _)); injection Hm as _ <-; [|done].
  destruct H1 as [Hlen Hcur]. unfold cursor_ok. cbn.
  split; [done|].
  destruct (closest_scan_range q (lines (ed s1)) 0 (PInf, current_line (ed s1)))
    as [->|?]; cbn; lia.
Qed.

Lemma keeps_cursor_cursor_down : keeps_cursor cursor_down.
Proof.
  intros s r s' [Hlen Hcur] [= _ <-]. unfold cursor_ok. cbn. lia.
Qed.

Lemma keeps_cursor_cursor_up : keeps_cursor cursor_up.
Proof.
  intros s r s' [Hlen Hcur] [= _ <-]. unfold cursor_ok. cbn. lia.
Qed.

Lemma keeps_cursor_remove_timestamp : keeps_cursor remove_timestamp.
Proof.
  intros s r s' [Hlen Hcur].
  unfold remove_timestamp, bind, self, PyList.getitem, PyList.setitem,
    PyList.pop.
  rewrite norm_index_nonneg by lia. cbn [mbind option_bind].
  destruct (lines (ed s) !! Z.to_nat (current_line (ed s))) as [line|] eqn:El;
    [|discriminate].
  cbn [or_raise ret]. destruct (String.eqb line EmptyString).
  - destruct (Nat.ltb_spec 1 (length (lines (ed s)))) as [Hgt|Hle];
      [|by intros [= _ <-]].
    cbn [or_raise ret assign ed clock].
    assert (length (delete (Z.to_nat (current_line (ed s))) (lines (ed s)))
            = (length (lines (ed s)) - 1)%nat) as Hdel.
    { rewrite length_delete; [done|]. by rewrite lookup_lt_is_Some; lia. }
    destruct (Z.leb_spec (Z.of_nat (length (delete (Z.to_nat (current_line (ed s)))
                                              (lines (ed s)))))
                (current_line (ed s)));
      intros [= _ <-]; unfold cursor_ok; cbn; rewrite Hdel in *; lia.
  - destruct (PyStr.startswith "[" line); [|by intros [= _ <-]].
    cbn [or_raise ret assign ed clock]. intros [= _ <-].
    unfold cursor_ok. cbn. rewrite length_insert. lia.
Qed.

Lemma keeps_cursor_add_timestamp : keeps_cursor (add_timestamp w).
Proof.
  intros s r s' [Hlen Hcur] Hadd.
  destruct (get_player_position_value w s) as (q & s1 & Hp).
  destruct (lines (ed s) !! Z.to_nat (current_line (ed s))) as [line|] eqn:El.
  2:{ apply lookup_ge_None in El. lia. }
  pose proof (add_timestamp_spec w s q s1 line Hp (proj1 Hcur) El) as H.
  cbv zeta in H.
  destruct (if PyStr.startswith "[" line then _ else _) as [text|].
  - destruct H as (s2 & H2 & Hl & Hc & _). rewrite Hadd in H2.
    injection H2 as _ <-. unfold cursor_ok. rewrite Hl, Hc.
    rewrite length_app, length_insert.
    destruct (Z.eqb_spec (current_line (ed s))
                (Z.of_nat (length (lines (ed s))) - 1)); cbn; lia.
  - destruct H as [H _]. by rewrite Hadd in H.
Qed.

Lemma keeps_cursor_dispatch k :
  editing_key k = true -> keeps_cursor (dispatch w k).
Proof.
  destruct k; try discriminate; intros _; cbn [dispatch];
    try apply keeps_cursor_ret;
    (apply keeps_cursor_bind; [|intros; apply keeps_cursor_ret]).
  - apply keeps_cursor_add_timestamp.
  - apply keeps_cursor_remove_timestamp.
  - apply keeps_keeps_cursor, keeps_restart_playback.
  - apply keeps_keeps_cursor, keeps_seek_relative.
  - apply keeps_keeps_cursor, keeps_seek_relative.
  - apply keeps_cursor_cursor_down.
  - apply keeps_cursor_cursor_up.
  - apply keeps_cursor_move_to_closest_timestamp.
Qed.

Lemma keeps_cursor_run_iteration last k :
  from_option editing_key true k = true ->
  keeps_cursor (run_iteration w last k).
Proof.
  intros Hk. unfold run_iteration.
  apply keeps_cursor_bind;
    [apply keeps_keeps_cursor, keeps_get_player_position|intros _].
  apply keeps_cursor_bind;
    [apply keeps_keeps_cursor, keeps_get_relative_time|intros _].
  apply keeps_cursor_bind; [apply keeps_keeps_cursor, keeps_ask|intros now].
  apply keeps_cursor_bind.
  - unfold sync_tick. apply keeps_cursor_bind;
      [apply keeps_keeps_cursor, keeps_self|intros e].
    destruct (_ && _); [|apply keeps_cursor_ret].
    apply keeps_cursor_bind;
      [apply keeps_cursor_move_to_closest_timestamp|].
    intros; apply keeps_cursor_ret.
  - intros l. destruct k as [k|]; [|apply keeps_cursor_ret].
    apply keeps_cursor_bind; [by apply keeps_cursor_dispatch|].
    intros; apply keeps_cursor_ret.
Qed.

(** Whatever keys are pressed, short of [l] and [e], [run] leaves the
    cursor on a line of the document when it returns. *)
Theorem run_keeps_cursor (keys : list (option key)) : forall last s r s',
  forallb (from_option editing_key true) keys = true ->
  cursor_ok (ed s) ->
  run_from w last keys s = (Val r, s') ->
  cursor_ok (ed s').
Proof.
  induction keys as [|k keys IH]; intros last s r s' Hkeys Hs;
    cbn [run_from].
  - by intros [= _ <-].
  - cbn [forallb] in Hkeys. apply andb_true_iff in Hkeys as [Hk Hkeys].
    unfold bind.
    destruct (run_iteration w last k s) as [[[l x]|e] s1] eqn:E;
      [|discriminate].
    assert (cursor_ok (ed s1)) as H1
      by (by eapply keeps_cursor_run_iteration).
    cbn [fst snd]. destruct x; [by intros [= _ <-]|].
    by apply IH.
Qed.

End Keys.

Lemma run_keeps_cursor_witness :
  cursor_ok
    (ed (snd (run_from demo_world 0
                [Some Key_space; None; Some Key_up; Some Key_x; Some Key_enter]
                (Machine (set_lines ["la"; "li"] init_editor) 0)))).
Proof.
  eapply (run_keeps_cursor demo_world
            [Some Key_space; None; Some Key_up; Some Key_x; Some Key_enter]
            0%Q (Machine (set_lines ["la"; "li"] init_editor) 0)).
  - reflexivity.
  - unfold cursor_ok. cbn. lia.
  - vm_compute. reflexivity.
Defined.

(** * What a key can raise *)

Lemma split1_no_cut c s :
  PyStr.split1 c s !! 1%nat = None -> PyStr.index c s = None.
Proof.
  induction s as [|a s IH]; cbn [PyStr.split1 PyStr.index]; [done|].
  destruct (Ascii.eqb a c); [done|].
  destruct (PyStr.split1 c s) as [|p ps]; cbn [lookup list_lookup] in *.
  - intros _. rewrite IH; done.
  - intros H. rewrite IH; [done|]. exact H.
Qed.

Lemma bind_ret_raises {A B} (m : M A) (b : B) s e s' :
  (m;; ret b) s = (Exc e, s') -> m s = (Exc e, s').
Proof.
  unfold bind, ret. destruct (m s) as [[a|e'] s1]; [discriminate|].
  by intros [= -> ->].
Qed.

Lemma remove_timestamp_returns s :
  cursor_ok (ed s) -> exists s', remove_timestamp s = (Val tt, s').
Proof.
  intros [Hlen Hcur].
  unfold remove_timestamp, bind, self, PyList.getitem, PyList.setitem,
    PyList.pop.
  rewrite norm_index_nonneg by lia. cbn [mbind option_bind].
  destruct (lines (ed s) !! Z.to_nat (current_line (ed s))) as [line|] eqn:El.
  2:{ apply lookup_ge_None in El. lia. }
  cbn [or_raise ret]. repeat case_match; eauto.
Qed.

Lemma load_lrc_from_current_returns w s :
  exists b s', load_lrc_from_current w s = (Val b, s').
Proof.
  unfold load_lrc_from_current, bind, self, ask, assign, ret.
  repeat case_match; eauto.
Qed.

(** A key whose branch raises: it is Space, on a cursor line that opens a
    bracket and never closes it, and the document is as it was. *)
Lemma dispatch_raises (w : world) (k : key) (s s' : machine) (e : exn) :
  cursor_ok (ed s) ->
  dispatch w k s = (Exc e, s') ->
  k = Key_space /\ e = IndexError /\ document (ed s') = document (ed s) /\
  exists line,
    lines (ed s) !! Z.to_nat (current_line (ed s)) = Some line /\
    PyStr.startswith "[" line = true /\
    PyStr.index "]" line = None.
Proof.
  intros Hs Hd. destruct k; cbn [dispatch] in Hd; try discriminate Hd.
  - (* Space *)
    apply bind_ret_raises in Hd. split; [done|].
    destruct Hs as [Hlen Hcur].
    destruct (get_player_position_value w s) as (q & s1 & Hp).
    destruct (lines (ed s) !! Z.to_nat (current_line (ed s))) as [line|] eqn:El.
    2:{ apply lookup_ge_None in El. lia. }
    pose proof (add_timestamp_spec w s q s1 line Hp (proj1 Hcur) El) as H.
    cbv zeta in H. destruct (PyStr.startswith "[" line) eqn:Hst.
    + destruct (PyStr.split1 "]" line !! 1%nat) eqn:Hcut; cbn in H.
      * destruct H as (s2 & H2 & _). by rewrite Hd in H2.
      * destruct H as (H & Hdoc & _). rewrite Hd in H, Hdoc.
        injection H as ->.
        split; [done|]. split; [exact Hdoc|].
        exists line. by rewrite (split1_no_cut _ _ Hcut).
    + destruct H as (s2 & H2 & _). by rewrite Hd in H2.
  - (* x *)
    apply bind_ret_raises in Hd.
    destruct (remove_timestamp_returns s Hs) as [s2 H2]. by rewrite Hd in H2.
  - (* r *)
    apply bind_ret_raises in Hd.
    destruct (try_except_ret
      (nc <- not_connected w;;
       if nc then ret false
       else e <- self;;
            p <- or_raise AttributeError (current_player e);;
            call (Seek w p 0);; call (Play w p);; ret true) false s) as [v Hv].
    change (fst (restart_playback w s) = Val v) in Hv. by rewrite Hd in Hv.
  - (* left *)
    apply bind_ret_raises in Hd.
    assert (exists v, fst (seek_relative w (-5) s) = Val v) as [v Hv]
      by apply try_except_ret.
    by rewrite Hd in Hv.
  - (* right *)
    apply bind_ret_raises in Hd.
    assert (exists v, fst (seek_relative w 5 s) = Val v) as [v Hv]
      by apply try_except_ret.
    by rewrite Hd in Hv.
  - (* l *)
    apply bind_ret_raises in Hd.
    destruct (load_lrc_from_current_returns w s) as (b & s2 & H2).
    by rewrite Hd in H2.
  - (* e *)
    unfold bind at 1 in Hd. unfold self at 1 in Hd.
    unfold bind at 1 in Hd. unfold assign at 1 in Hd.
    apply bind_ret_raises in Hd.
    match type of Hd with load_lrc_from_current w ?s0 = _ =>
      destruct (load_lrc_from_current_returns w s0) as (b & s2 & H2) end.
    by rewrite Hd in H2.
  - (* Enter *)
    apply bind_ret_raises in Hd.
    destruct (get_player_position_value w s) as (q & s1 & Hp).
    rewrite (move_to_closest_timestamp_unfold w s q s1 Hp) in Hd.
    cbv zeta in Hd. by repeat case_match.
Qed.

(** With the cursor on a line, the branch of a key raises only for Space,
    only [IndexError], and only when the cursor line opens a bracket and
    never closes it. *)
Theorem dispatch_raises_only_on_unclosed_bracket (w : world) (k : key)
    (s s' : machine) (e : exn) :
  cursor_ok (ed s) ->
  dispatch w k s = (Exc e, s') ->
  k = Key_space /\ e = IndexError /\
  exists line,
    lines (ed s) !! Z.to_nat (current_line (ed s)) = Some line /\
    PyStr.startswith "[" line = true /\
    PyStr.index "]" line = None.
Proof.
  intros Hs Hd.
  destruct (dispatch_raises w k s s' e Hs Hd) as (Hk & He & _ & Hline).
  done.
Qed.

Lemma dispatch_raises_only_on_unclosed_bracket_witness :
  Key_space = Key_space /\ IndexError = IndexError /\
  exists line,
    lines (ed (Machine (set_lines ["[intro"] init_editor) 0))
      !! Z.to_nat (current_line (ed (Machine (set_lines ["[intro"] init_editor) 0)))
    = Some line /\
    PyStr.startswith "[" line = true /\ PyStr.index "]" line = None.
Proof.
  eapply (dispatch_raises_only_on_unclosed_bracket silent_world Key_space
            (Machine (set_lines ["[intro"] init_editor) 0)).
  - unfold cursor_ok. cbn. lia.
  - vm_compute. reflexivity.
Defined.

(** * How a session can end *)





Section Session.
Variable w : world.






End Session.



(** [remove_timestamp] on an empty line that is not the only line: the
    line is deleted, the cursor stays where it is unless it was on the last
    line, and the modified flag is set. *)
Theorem remove_timestamp_deletes_empty_line (s : machine) :
  0 <= current_line (ed s) ->
  lines (ed s) !! Z.to_nat (current_line (ed s)) = Some EmptyString ->
  (1 < length (lines (ed s)))%nat ->
  exists s',
    remove_timestamp s = (Val tt, s') /\
    lines (ed s') = delete (Z.to_nat (current_line (ed s))) (lines (ed s)) /\
    current_line (ed s') =
      Z.min (current_line (ed s)) (Z.of_nat (length (lines (ed s))) - 2) /\
    modified (ed s') = true.
Proof.
  intros Hcur Hline Hlen.
  assert (Z.to_nat (current_line (ed s)) < length (lines (ed s)))%nat as Hlt
    by (by eapply lookup_lt_Some).
  unfold remove_timestamp, bind, self, PyList.getitem, PyList.pop.
  rewrite norm_index_nonneg by lia. cbn [mbind option_bind].
  rewrite Hline. cbn [or_raise ret]. cbn [String.eqb].
  apply Nat.ltb_lt in Hlen as Hlen'. rewrite Hlen'.
  cbn [or_raise ret assign ed clock].
  assert (length (delete (Z.to_nat (current_line (ed s))) (lines (ed s)))
          = (length (lines (ed s)) - 1)%nat) as Hdel.
  { rewrite length_delete; [done|]. by rewrite lookup_lt_is_Some. }
  rewrite Hdel.
  destruct (Z.leb_spec (Z.of_nat (length (lines (ed s)) - 1))
              (current_line (ed s)));
    eexists; (split; [reflexivity|]); cbn; repeat split; lia.
Qed.

Lemma remove_timestamp_deletes_empty_line_witness :
  exists s',
    remove_timestamp
      (Machine (set_current_line 2
                  (set_lines ["la"; "li"; EmptyString] init_editor)) 0) =
    (Val tt, s') /\
    lines (ed s') = ["la"; "li"] /\ current_line (ed s') = 1 /\
    modified (ed s') = true.
Proof.
  apply (remove_timestamp_deletes_empty_line
           (Machine (set_current_line 2
                       (set_lines ["la"; "li"; EmptyString] init_editor)) 0));
    [done|reflexivity|cbn; lia].
Defined.

(** [load_lrc_from_current] raises nothing and leaves the modified flag as
    it was.  When it returns [True] the cursor is on line 0 and the lines
    are those of the lyric file, none if there is no such file.  When it
    returns [False] the cursor has not moved and the lines are as they
    were, or there is none left. *)
Theorem load_lrc_from_current_spec (w : world) (s : machine) :
  exists b s',
    load_lrc_from_current w s = (Val b, s') /\
    modified (ed s') = modified (ed s) /\
    if b then
      current_line (ed s') = 0 /\
      exists f,
        current_file (ed s) = Some f /\ f <> EmptyString /\
        lines (ed s') =
          match lrc_of w f (clock s) with LrcLines ls => ls | _ => [] end
    else
      current_line (ed s') = current_line (ed s) /\
      (lines (ed s') = lines (ed s) \/ lines (ed s') = []).
Proof.
  unfold load_lrc_from_current, bind, self.
  destruct (current_file (ed s)) as [f|] eqn:Ef.
  2:{ exists false, s. split; [done|]. split; [done|]. split; [done|by left]. }
  destruct (String.eqb_spec f EmptyString) as [->|Hne].
  { exists false, s. split; [done|]. split; [done|]. split; [done|by left]. }
  unfold ask at 1. cbn [ed clock].
  destruct (lrc_of w f (clock s)) as [| | |ls] eqn:El;
    unfold bind, assign, ret; cbn [ed clock]; eexists _, _;
    (split; [reflexivity|]); cbn; (split; [done|]).
  - split; [done|by left].
  - split; [done|]. exists f. by rewrite El.
  - split; [done|by right].
  - split; [done|]. exists f. by rewrite El.
Qed.

(** * Choosing and connecting a player *)

Lemma find_preferred_spec prefs players p :
  find_preferred prefs players = Some p ->
  p ∈ players /\ exists pref, pref ∈ prefs /\ PyStr.startswith pref p = true.
Proof.
  induction prefs as [|pref prefs IH]; cbn [find_preferred]; [done|].
  destruct (find (PyStr.startswith pref) players) as [p0|] eqn:Ef.
  - intros [= ->]. apply find_some in Ef as [Hin Hst].
    split; [by apply list_elem_of_In|]. exists pref. split; [left|done].
  - intros H. destruct (IH H) as (Hin & pref' & Hp & Hst).
    split; [done|]. exists pref'. split; [by right|done].
Qed.

Lemma find_preferred_none prefs players :
  find_preferred prefs players = None ->
  forall pref p, pref ∈ prefs -> p ∈ players -> PyStr.startswith pref p = false.
Proof.
  induction prefs as [|pref0 prefs IH]; cbn [find_preferred].
  - intros _ pref p Hp. by apply elem_of_nil in Hp.
  - destruct (find (PyStr.startswith pref0) players) as [p0|] eqn:Ef;
      [done|].
    intros H pref p [->|Hp]%elem_of_cons Hin.
    + apply list_elem_of_In in Hin.
      by apply (find_none _ _ Ef).
    + by apply IH.
Qed.

Lemma select_player_elem players p :
  select_player players = Some p -> p ∈ players.
Proof.
  unfold select_player.
  assert (head players = Some p -> p ∈ players) as Hhead.
  { destruct players; intros [= ->]. left. }
  destruct (find_preferred preferred_players players) as [p0|] eqn:Ef;
    [|done].
  destruct (String.eqb p0 EmptyString); [done|]. intros [= ->].
  by destruct (find_preferred_spec _ _ _ Ef).
Qed.

(** The player that [connect_player] takes among the MPRIS names: none
    only when there is none; otherwise one of them, and one with a preferred
    prefix whenever one of them has one. *)
Theorem select_player_spec (players : list string) :
  match select_player players with
  | None => players = []
  | Some p =>
      p ∈ players /\
      ((exists pref q, pref ∈ preferred_players /\ q ∈ players /\
                       PyStr.startswith pref q = true) ->
       exists pref, pref ∈ preferred_players /\
                    PyStr.startswith pref p = true)
  end.
Proof.
  unfold select_player.
  destruct (find_preferred preferred_players players) as [p|] eqn:Ef.
  - destruct (find_preferred_spec _ _ _ Ef) as (Hin & pref & Hpref & Hst).
    destruct (String.eqb_spec p EmptyString) as [->|Hne].
    + exfalso. revert Hpref Hst. unfold preferred_players.
      rewrite !elem_of_cons, elem_of_nil. by intros [->|[->|[->|[]]]].
    + split; [done|]. intros _. by exists pref.
  - destruct players as [|p players]; cbn; [done|].
    split; [left|]. intros (pref & q & Hpref & Hq & Hst).
    by rewrite (find_preferred_none _ _ Ef pref q) in Hst.
Qed.

(** The two bus methods that [connect_player] calls after it has taken a
    player keep the player and the mode. *)
Lemma get_playback_status_session w s :
  current_player (ed (snd (get_playback_status w s))) = current_player (ed s) /\
  edit_mode (ed (snd (get_playback_status w s))) = edit_mode (ed s) /\
  exists v, fst (get_playback_status w s) = Val v.
Proof.
  unfold get_playback_status, try_except, bind, self, call, ret.
  repeat case_match; simplify_eq; cbn; eauto.
Qed.

Lemma update_metadata_session w s :
  current_player (ed (snd (_update_metadata w s))) = current_player (ed s) /\
  edit_mode (ed (snd (_update_metadata w s))) = edit_mode (ed s) /\
  fst (_update_metadata w s) = Val tt.
Proof.
  unfold _update_metadata, try_except, bind, self, call, ret, assign.
  repeat case_match; simplify_eq; cbn; eauto.
Qed.

(** [connect_player] raises nothing.  When it returns [True] the editor
    holds a player that the bus listed and whose name begins with the MPRIS
    prefix, and the mode is as it was.  When it returns [False], either the
    editor is as it was, or it holds no player and is in Edit mode. *)
Theorem connect_player_spec (w : world) (s : machine) :
  exists b s', connect_player w s = (Val b, s') /\
    if b then
      exists p names t,
        current_player (ed s') = Some p /\
        ListNames w t = Returns names /\ p ∈ names /\
        PyStr.startswith "org.mpris.MediaPlayer2." p = true /\
        edit_mode (ed s') = edit_mode (ed s)
    else
      ed s' = ed s \/
      (current_player (ed s') = None /\ edit_mode (ed s') = true).
Proof.
  unfold connect_player, try_except.
  match goal with |- context [match ?m s with _ => _ end] =>
    destruct (m s) as [[b|e] s1] eqn:E end.
  2:{ eexists false, _. split; [reflexivity|]. right. done. }
  exists b, s1. split; [done|].
  unfold bind at 1 in E. unfold call at 1 in E.
  destruct (get_object w "org.freedesktop.DBus" (clock s)); [|discriminate].
  unfold bind at 1 in E. unfold call at 1 in E. cbn [clock ed] in E.
  destruct (ListNames w (S (clock s))) as [names|] eqn:En; [|discriminate].
  set (players :=
         List.filter (PyStr.startswith "org.mpris.MediaPlayer2.") names) in E.
  destruct (select_player players) as [p|] eqn:Es;
    [|unfold ret in E; injection E as <- <-; by left].
  pose proof (select_player_elem _ _ Es) as Hin.
  apply list_elem_of_In, filter_In in Hin as [Hin Hst].
  unfold bind at 1 in E. unfold call at 1 in E. cbn [clock ed] in E.
  destruct (get_object w p (S (S (clock s)))); [|discriminate].
  unfold bind at 1 in E. unfold assign at 1 in E. cbn [clock ed] in E.
  unfold bind at 1 in E.
  match type of E with context [get_playback_status w ?s0] =>
    destruct (get_playback_status_session w s0) as (Hp1 & He1 & v & Hv);
    destruct (get_playback_status w s0) as [r1 s2] end.
  cbn [fst snd] in *. subst r1. unfold bind at 1 in E.
  destruct (String.eqb v "Playing").
  - destruct (update_metadata_session w s2) as (Hp2 & He2 & Hv2).
    destruct (_update_metadata w s2) as [r2 s3]. cbn [fst snd] in *. subst r2.
    unfold ret in E. injection E as <- <-. exists p, names, (S (clock s)).
    split; [by rewrite Hp2, Hp1|]. split; [done|].
    split; [by apply list_elem_of_In|]. split; [done|].
    by rewrite He2, He1.
  - unfold ret in E. injection E as <- <-. exists p, names, (S (clock s)).
    split; [by rewrite Hp1|]. split; [done|].
    split; [by apply list_elem_of_In|]. split; [done|]. by rewrite He1.
Qed.

(** * Seeking, restarting and the relative time *)

(** [seek_relative] raises nothing and leaves the document alone.  When
    it returns [True], the player has given its position and accepted a
    seek by the offset, cut short so that the target is not before the
    start of the track. *)
Theorem seek_relative_spec (w : world) (offset_seconds : Z) (s : machine) :
  exists b s', seek_relative w offset_seconds s = (Val b, s') /\
    quiet s s' /\
    (b = true ->
     exists p t position,
       Position w p t = Returns position /\
       Seek w p (Z.max 0 (position + offset_seconds * 1000000) - position)
         (S t) = Returns tt /\
       0 <= position +
            (Z.max 0 (position + offset_seconds * 1000000) - position)).
Proof.
  pose proof (keeps_seek_relative w offset_seconds s) as Hq.
  unfold seek_relative, try_except in *.
  match goal with |- context [match ?m s with _ => _ end] =>
    destruct (m s) as [[b|e] s1] eqn:E end.
  2:{ eexists false, _. split; [reflexivity|]. split; [done|]. done. }
  exists b, s1. split; [done|]. split; [done|]. intros ->.
  unfold bind at 1 in E.
  destruct (not_connected w s) as [[nc|e] s2]; [|discriminate].
  destruct nc; [discriminate|].
  unfold bind at 1 in E. unfold self at 1 in E. unfold bind at 1 in E.
  destruct (current_player (ed s2)) as [p|]; [|discriminate].
  cbn [or_raise] in E. unfold ret at 1 in E.
  unfold bind at 1 in E. unfold call at 1 in E.
  destruct (Position w p (clock s2)) as [position|] eqn:Ep; [|discriminate].
  unfold bind at 1 in E. unfold call at 1 in E. cbn [clock ed] in E.
  destruct (Seek w p _ (S (clock s2))) as [[]|] eqn:Es; [|discriminate].
  exists p, (clock s2), position. split; [done|]. split; [done|]. lia.
Qed.

(** [restart_playback] raises nothing and leaves the document alone; when
    it returns [True], the player has accepted [Seek(0)] and then
    [Play()]. *)
Theorem restart_playback_spec (w : world) (s : machine) :
  exists b s', restart_playback w s = (Val b, s') /\
    quiet s s' /\
    (b = true ->
     exists p t, Seek w p 0 t = Returns tt /\ Play w p (S t) = Returns tt).
Proof.
  pose proof (keeps_restart_playback w s) as Hq.
  unfold restart_playback, try_except in *.
  match goal with |- context [match ?m s with _ => _ end] =>
    destruct (m s) as [[b|e] s1] eqn:E end.
  2:{ eexists false, _. split; [reflexivity|]. split; [done|]. done. }
  exists b, s1. split; [done|]. split; [done|]. intros ->.
  unfold bind at 1 in E.
  destruct (not_connected w s) as [[nc|e] s2]; [|discriminate].
  destruct nc; [discriminate|].
  unfold bind at 1 in E. unfold self at 1 in E. unfold bind at 1 in E.
  destruct (current_player (ed s2)) as [p|]; [|discriminate].
  cbn [or_raise] in E. unfold ret at 1 in E.
  unfold bind at 1 in E. unfold call at 1 in E.
  destruct (Seek w p 0 (clock s2)) as [[]|] eqn:Es; [|discriminate].
  unfold bind at 1 in E. unfold call at 1 in E. cbn [clock ed] in E.
  destruct (Play w p (S (clock s2))) as [[]|] eqn:Ep; [|discriminate].
  by exists p, (clock s2).
Qed.







(** * Idling in Edit mode *)

Lemma steady_refl s : steady s s.
Proof. split; [apply quiet_refl|done]. Qed.

Lemma steady_trans s1 s2 s3 : steady s1 s2 -> steady s2 s3 -> steady s1 s3.
Proof.
  intros [H1 E1] [H2 E2]. split; [by eapply quiet_trans|auto].
Qed.

Lemma stays_bind {A B} (m : M A) (k : A -> M B) :
  stays m -> (forall a, stays (k a)) -> stays (bind m k).
Proof.
  intros Hm Hk s. unfold bind. specialize (Hm s).
  destruct (m s) as [[a|e] s']; simpl in *; [|done].
  eapply steady_trans; [exact Hm|apply Hk].
Qed.

Lemma stays_try_except {A} (m h : M A) :
  stays m -> stays h -> stays (try_except m h).
Proof.
  intros Hm Hh s. unfold try_except. specialize (Hm s).
  destruct (m s) as [[a|e] s']; simpl in *; [done|].
  eapply steady_trans; [exact Hm|apply Hh].
Qed.

Lemma stays_pure {A} (m : M A) : (forall s, snd (m s) = s) -> stays m.
Proof. intros H s. rewrite H. apply steady_refl. Qed.

Lemma stays_call {A} (o : nat -> reply A) : stays (call o).
Proof.
  intros s. unfold call.
  destruct (o (clock s)); repeat split; simpl; try done; lia.
Qed.

Lemma stays_ask {A} (o : nat -> A) : stays (ask o).
Proof. intros s. repeat split; simpl; try done; lia. Qed.

Lemma stays_assign f :
  (forall e, lines (f e) = lines e /\ current_line (f e) = current_line e /\
             modified (f e) = modified e /\
             (edit_mode e = true -> edit_mode (f e) = true)) ->
  stays (assign f).
Proof. intros Hf s. destruct (Hf (ed s)) as (?&?&?&?). by repeat split. Qed.

Lemma stays_or_raise {A} e (o : option A) : stays (or_raise e o).
Proof. destruct o; by apply stays_pure. Qed.

Ltac stays_step :=
  match goal with
  | |- stays (or_raise _ _) => apply stays_or_raise
  | |- stays (bind _ _) => apply stays_bind; [|intros ?]
  | |- stays (try_except _ _) => apply stays_try_except
  | |- stays (assign _) => apply stays_assign; intros ?; by repeat split
  | |- stays (call _) => apply stays_call
  | |- stays (ask _) => apply stays_ask
  | |- stays (match ?x with _ => _ end) => destruct x
  | |- stays (if ?b then _ else _) => destruct b
  | |- stays _ => by apply stays_pure
  end.

Section EditMode.
Variable w : world.

Lemma stays_update_metadata : stays (_update_metadata w).
Proof. unfold _update_metadata. repeat stays_step. Qed.

Lemma stays_get_playback_status : stays (get_playback_status w).
Proof. unfold get_playback_status. repeat stays_step. Qed.

Lemma stays_connect_player : stays (connect_player w).
Proof.
  unfold connect_player.
  repeat first [apply stays_update_metadata | apply stays_get_playback_status
               | stays_step].
Qed.

Lemma stays_get_player_position : stays (get_player_position w).
Proof.
  unfold get_player_position, not_connected.
  repeat first [apply stays_update_metadata | apply stays_get_playback_status
               | apply stays_connect_player | stays_step].
Qed.

Lemma stays_get_relative_time : stays (get_relative_time w).
Proof. unfold get_relative_time. repeat stays_step. Qed.

(** In Edit mode an iteration without a key returns and is steady. *)
Lemma idle_iteration_in_edit_mode last s :
  edit_mode (ed s) = true ->
  exists l s', run_iteration w last None s = (Val (l, None), s') /\
               steady s s'.
Proof.
  intros He. unfold run_iteration.
  unfold bind at 1.
  pose proof (stays_get_player_position s) as H1.
  destruct (get_player_position_value w s) as (q & s1 & Hp).
  rewrite Hp in *. cbn [snd] in H1.
  unfold bind at 1.
  pose proof (stays_get_relative_time s1) as H2.
  assert (exists r, fst (get_relative_time w s1) = Val r) as [r Hr].
  { unfold get_relative_time, bind, self.
    destruct (last_timestamp_value (ed s1)), (last_timestamp_time (ed s1));
      simpl; eauto. }
  destruct (get_relative_time w s1) as [r' s2]. cbn [fst snd] in *. subst r'.
  pose proof (steady_trans _ _ _ H1 H2) as H12.
  unfold bind at 1. unfold ask at 1. unfold bind at 1.
  unfold sync_tick. unfold bind at 1. unfold self at 1. cbn [ed clock].
  rewrite (proj2 H12 He). cbn [negb andb]. unfold ret.
  eexists _, _. split; [reflexivity|].
  eapply steady_trans; [exact H12|]. repeat split; simpl; try done; lia.
Qed.

(** In Edit mode, iterations of [run] in which no key is pressed leave the
    lines, the cursor and the modified flag alone, and the editor in Edit
    mode, whatever the player does. *)
Theorem idle_in_edit_mode (n : nat) : forall last s,
  edit_mode (ed s) = true ->
  exists s', run_from w last (replicate n None) s = (Val None, s') /\
             lines (ed s') = lines (ed s) /\
             current_line (ed s') = current_line (ed s) /\
             modified (ed s') = modified (ed s) /\
             edit_mode (ed s') = true.
Proof.
  induction n as [|n IH]; intros last s He; cbn [replicate run_from].
  - by exists s.
  - destruct (idle_iteration_in_edit_mode last s He)
      as (l & s1 & Hrun & [(Hl & Hc & Hm & _) He1]).
    unfold bind. rewrite Hrun. cbn [fst snd].
    destruct (IH l s1 (He1 He)) as (s' & Hrun' & Hl' & Hc' & Hm' & He').
    exists s'. split; [done|]. by rewrite Hl', Hc', Hm', Hl, Hc, Hm.
Qed.

End EditMode.

Lemma idle_in_edit_mode_witness :
  exists s',
    run_from demo_world 0 (replicate 3 None)
      (Machine (set_edit_mode true
                  (set_lines ["[00:01.00]la"; "[00:09.00]li"] init_editor)) 0)
    = (Val None, s') /\
    current_line (ed s') = 0.
Proof.
  destruct (idle_in_edit_mode demo_world 3 0%Q
    (Machine (set_edit_mode true
                (set_lines ["[00:01.00]la"; "[00:09.00]li"] init_editor)) 0))
    as (s' & H1 & _ & H2 & _); [reflexivity|].
  exists s'. split; [exact H1|exact H2].
Defined.

(** * The timestamps of the transcription tool *)






(** * Saving and reopening *)

Lemma universal_newlines_id s :
  string_forall (fun c => negb (Ascii.eqb c (ascii_of_nat 13))) s = true ->
  universal_newlines s = s.
Proof.
  induction s as [|c s IH]; cbn [string_forall universal_newlines]; [done|].
  intros [Hc Hs]%andb_true_iff. apply negb_true_iff in Hc. rewrite Hc.
  by rewrite IH.
Qed.

Lemma one_line_no_cr l :
  one_line l = true ->
  string_forall (fun c => negb (Ascii.eqb c (ascii_of_nat 13))) l = true.
Proof.
  apply string_forall_impl. intros c.
  destruct c as [[] [] [] [] [] [] [] []]; done.
Qed.

Lemma splitlines_line l rest :
  one_line l = true ->
  splitlines (l ++ String (ascii_of_nat 10) rest) = l :: splitlines rest.
Proof.
  intros Hl. induction l as [|c l IH].
  - cbn [String.append splitlines]. by destruct rest.
  - cbn [one_line string_forall] in Hl. apply andb_true_iff in Hl as [Hc Hl].
    apply negb_true_iff in Hc.
    cbn [String.append splitlines]. rewrite Hc. by rewrite IH.
Qed.

Lemma splitlines_last l :
  one_line l = true -> l <> EmptyString -> splitlines l = [l].
Proof.
  induction l as [|c l IH]; [done|]. intros Hl _.
  cbn [one_line string_forall] in Hl. apply andb_true_iff in Hl as [Hc Hl].
  apply negb_true_iff in Hc. cbn [splitlines]. rewrite Hc.
  destruct l as [|c' l]; [done|]. by rewrite IH.
Qed.

Lemma join_lines_cons l l' ls :
  join_lines (l :: l' :: ls) =
  l ++ String (ascii_of_nat 10) (join_lines (l' :: ls)).
Proof. reflexivity. Qed.

Lemma join_lines_no_cr ls :
  Forall (fun l => one_line l = true) ls ->
  string_forall (fun c => negb (Ascii.eqb c (ascii_of_nat 13)))
    (join_lines ls) = true.
Proof.
  induction 1 as [|l ls Hl Hls IH]; [done|].
  destruct ls as [|l' ls]; [by apply one_line_no_cr|].
  rewrite join_lines_cons, string_forall_app. cbn [string_forall].
  rewrite (one_line_no_cr l Hl). by rewrite IH.
Qed.

Lemma splitlines_join_trailing ls :
  Forall (fun l => one_line l = true) ls ->
  splitlines (join_lines (ls ++ [EmptyString])) = ls.
Proof.
  induction 1 as [|l ls Hl Hls IH]; [done|].
  destruct ls as [|l' ls].
  - cbn [app]. rewrite join_lines_cons. cbn [join_lines].
    by rewrite splitlines_line.
  - change ((l :: l' :: ls) ++ [EmptyString])%list
      with (l :: l' :: (ls ++ [EmptyString]))%list.
    rewrite join_lines_cons, splitlines_line by done.
    f_equal. exact IH.
Qed.

Lemma splitlines_join_full ls l :
  Forall (fun l => one_line l = true) ls ->
  last ls = Some l -> l <> EmptyString ->
  splitlines (join_lines ls) = ls.
Proof.
  induction 1 as [|a ls Ha Hls IH]; [done|].
  destruct ls as [|b ls].
  - intros [= ->] Hne. by apply splitlines_last.
  - intros Hlast Hne. rewrite join_lines_cons, splitlines_line by done.
    f_equal. by apply IH.
Qed.

Lemma open_text_join_trailing ls :
  Forall (fun l => one_line l = true) ls ->
  open_text (join_lines (ls ++ [EmptyString])) =
  match ls with [] => [EmptyString] | _ => ls end.
Proof.
  intros Hls. unfold open_text. rewrite universal_newlines_id.
  2:{ apply join_lines_no_cr. apply Forall_app. split; [done|].
      by constructor. }
  rewrite splitlines_join_trailing by done. by destruct ls.
Qed.

Lemma open_text_join_full ls l :
  Forall (fun l => one_line l = true) ls ->
  last ls = Some l -> l <> EmptyString ->
  open_text (join_lines ls) = ls.
Proof.
  intros Hls Hlast Hne. unfold open_text.
  rewrite universal_newlines_id by (by apply join_lines_no_cr).
  rewrite (splitlines_join_full ls l) by done. by destruct ls.
Qed.

(** What [main] saves and what it reads again: a document whose lines hold
    no line break comes back without one empty last line, and as it was
    when its last line is not empty. *)
Theorem reopen_saved_lines (ls : list string) :
  Forall (fun l => one_line l = true) ls ->
  reopen (ls ++ [EmptyString]) =
    match ls with [] => [EmptyString] | _ => ls end /\
  (forall l, last ls = Some l -> l <> EmptyString -> reopen ls = ls).
Proof.
  intros Hls. unfold reopen. split.
  - by apply open_text_join_trailing.
  - intros l. by apply open_text_join_full.
Qed.

Lemma reopen_saved_lines_witness :
  reopen (["[00:01.00]la"; "li"] ++ [EmptyString]) = ["[00:01.00]la"; "li"] /\
  (forall l, last ["[00:01.00]la"; "li"] = Some l -> l <> EmptyString ->
             reopen ["[00:01.00]la"; "li"] = ["[00:01.00]la"; "li"]).
Proof.
  apply (reopen_saved_lines ["[00:01.00]la"; "li"]).
  repeat constructor.
Defined.

Lemma join_lines_no_cr_gen ls :
  Forall (fun l => string_forall
            (fun c => negb (Ascii.eqb c (ascii_of_nat 13))) l = true) ls ->
  string_forall (fun c => negb (Ascii.eqb c (ascii_of_nat 13)))
    (join_lines ls) = true.
Proof.
  induction 1 as [|l ls Hl Hls IH]; [done|].
  destruct ls as [|l' ls]; [done|].
  rewrite join_lines_cons, string_forall_app. cbn [string_forall].
  by rewrite Hl, IH.
Qed.

Lemma readlines_line l rest :
  one_line l = true ->
  readlines (l ++ String (ascii_of_nat 10) rest) =
  (l ++ newline) :: readlines rest.
Proof.
  intros Hl. induction l as [|c l IH]; [done|].
  cbn [one_line string_forall] in Hl. apply andb_true_iff in Hl as [Hc Hl].
  cbn [String.append readlines]. rewrite IH by done.
  by destruct c as [[] [] [] [] [] [] [] []].
Qed.

Lemma readlines_file_text ls :
  Forall (fun l => one_line l = true) ls ->
  readlines (file_text ls) = map (fun l => l ++ newline) ls.
Proof.
  induction 1 as [|l ls Hl Hls IH]; [done|].
  cbn [file_text map]. change (l ++ newline ++ file_text ls)
    with (l ++ String (ascii_of_nat 10) (file_text ls)).
  by rewrite readlines_line, IH.
Qed.

Lemma file_text_no_cr ls :
  Forall (fun l => one_line l = true) ls ->
  string_forall (fun c => negb (Ascii.eqb c (ascii_of_nat 13)))
    (file_text ls) = true.
Proof.
  induction 1 as [|l ls Hl Hls IH]; [done|].
  cbn [file_text]. unfold newline. rewrite string_forall_app.
  cbn [String.append string_forall].
  by rewrite (one_line_no_cr l Hl), IH.
Qed.

Lemma splitlines_join_with_breaks ls :
  Forall (fun l => one_line l = true) ls ->
  splitlines (join_lines (map (fun l => l ++ newline) ls)) = spaced ls.
Proof.
  induction 1 as [|l ls Hl Hls IH]; [done|].
  destruct ls as [|l' ls].
  - cbn [map join_lines spaced].
    change (l ++ newline) with (l ++ String (ascii_of_nat 10) EmptyString).
    by rewrite splitlines_line.
  - cbn [map]. rewrite join_lines_cons. cbn [map] in IH.
    rewrite append_assoc.
    change (newline ++ String (ascii_of_nat 10) ?r)
      with (String (ascii_of_nat 10) (EmptyString ++ String (ascii_of_nat 10) r)).
    rewrite splitlines_line by done. rewrite splitlines_line by done.
    by rewrite IH.
Qed.

(** Lines read by [readlines] keep their LF; [main] joins them with one
    more, so reopening the saved file shows an empty line after every line
    but the last. *)
Theorem reopen_after_readlines (ls : list string) :
  Forall (fun l => one_line l = true) ls ->
  readlines (universal_newlines (file_text ls)) =
    map (fun l => l ++ newline) ls /\
  reopen (readlines (universal_newlines (file_text ls))) =
    match ls with [] => [EmptyString] | _ => spaced ls end.
Proof.
  intros Hls.
  rewrite universal_newlines_id by (by apply file_text_no_cr).
  rewrite readlines_file_text by done. split; [done|].
  unfold reopen, open_text. rewrite universal_newlines_id.
  - rewrite splitlines_join_with_breaks by done.
    destruct ls as [|l [|l' ls]]; done.
  - apply join_lines_no_cr_gen. apply Forall_map.
    eapply Forall_impl; [exact Hls|]. intros l Hl. cbn beta.
    rewrite string_forall_app. by rewrite (one_line_no_cr l Hl).
Qed.

Lemma reopen_after_readlines_witness :
  readlines (universal_newlines (file_text ["la"; "li"])) =
    map (fun l => l ++ newline) ["la"; "li"] /\
  reopen (readlines (universal_newlines (file_text ["la"; "li"]))) =
    ["la"; EmptyString; "li"].
Proof.
  apply (reopen_after_readlines ["la"; "li"]). repeat constructor.
Defined.

(** * Lines without line breaks *)

Lemma one_line_app a b : one_line (a ++ b) = one_line a && one_line b.
Proof. apply string_forall_app. Qed.

Lemma stampchar_not_linebreak c :
  stampchar c = true -> negb (is_linebreak c) = true.
Proof. destruct c as [[] [] [] [] [] [] [] []]; done. Qed.

Lemma stampchars_one_line s :
  string_forall stampchar s = true -> one_line s = true.
Proof. apply string_forall_impl, stampchar_not_linebreak. Qed.

Lemma format_timestamp_one_line q : one_line (format_timestamp q) = true.
Proof.
  destruct (format_timestamp_shape q) as (mm & ss & -> & Hmm & Hss & _).
  change (String "[" (mm ++ String ":" (ss ++ "]")))
    with ("[" ++ (mm ++ ":" ++ (ss ++ "]"))).
  rewrite !one_line_app.
  rewrite (stampchars_one_line mm), (stampchars_one_line ss) by done.
  reflexivity.
Qed.

Lemma split1_one_line c s :
  one_line s = true ->
  Forall (fun p => one_line p = true) (PyStr.split1 c s).
Proof.
  induction s as [|a s IH]; cbn [PyStr.split1].
  - intros _. by repeat constructor.
  - cbn [one_line string_forall]. intros [Ha Hs]%andb_true_iff.
    destruct (Ascii.eqb a c); [by repeat constructor|].
    specialize (IH Hs). destruct (PyStr.split1 c s) as [|p ps].
    + repeat constructor. cbn [one_line string_forall]. by rewrite Ha.
    + inversion IH as [|? ? Hp Hps]; subst. constructor; [|done].
      cbn [one_line string_forall] in *. by rewrite Ha.
Qed.

Lemma splitlines_one_line s :
  Forall (fun l => one_line l = true) (splitlines s).
Proof.
  remember (String.length s) as n eqn:Hn. revert s Hn.
  induction n as [n IH] using lt_wf_ind. intros s ->.
  destruct s as [|c s]; cbn [splitlines]; [constructor|].
  destruct (is_linebreak c) eqn:Hc.
  - constructor; [done|]. destruct s as [|c' s]; [constructor|].
    destruct (_ && _); (eapply IH; [|reflexivity]); cbn; lia.
  - assert (Forall (fun l => one_line l = true) (splitlines s)) as Hs
      by (eapply IH; [|reflexivity]; cbn; lia).
    destruct (splitlines s) as [|l ls].
    + repeat constructor. cbn [one_line string_forall]. by rewrite Hc.
    + inversion Hs as [|? ? Hl Hls]; subst. constructor; [|done].
      cbn [one_line string_forall] in *. by rewrite Hc.
Qed.

(** * The transcription opened in the editor *)






(** * Saving what a session leaves *)

Lemma keeps_tidy_ret {A} (a : A) : keeps_tidy (ret a).
Proof. by intros s r s' Hs [= _ <-]. Qed.

Lemma keeps_tidy_bind {A B} (m : M A) (k : A -> M B) :
  keeps_tidy m -> (forall a, keeps_tidy (k a)) -> keeps_tidy (bind m k).
Proof.
  intros Hm Hk s r s' Hs. unfold bind.
  destruct (m s) as [[a|e] s1] eqn:E; [|discriminate].
  intros Hr. eapply Hk; [|done]. by eapply Hm.
Qed.

(** A step that keeps the cursor on a line and the lines as they are. *)
Lemma keeps_tidy_same_lines {A} (m : M A) :
  keeps_cursor m ->
  (forall s r s', m s = (Val r, s') -> lines (ed s') = lines (ed s)) ->
  keeps_tidy m.
Proof.
  intros Hc Hl s r s' [Hok Hls] Hm. split; [by eapply Hc|].
  by rewrite (Hl _ _ _ Hm).
Qed.

Lemma keeps_keeps_tidy {A} (m : M A) : keeps m -> keeps_tidy m.
Proof.
  intros Hk. apply keeps_tidy_same_lines; [by apply keeps_keeps_cursor|].
  intros s r s' Hm. specialize (Hk s). rewrite Hm in Hk. by destruct Hk.
Qed.

Section Tidy.
Variable w : world.

Lemma keeps_tidy_move_to_closest_timestamp :
  keeps_tidy (move_to_closest_timestamp w).
Proof.
  apply keeps_tidy_same_lines;
    [apply keeps_cursor_move_to_closest_timestamp|].
  intros s r s' Hm.
  destruct (get_player_position_value w s) as (q & s1 & Hp).
  rewrite (move_to_closest_timestamp_unfold w s q s1 Hp) in Hm.
  pose proof (keeps_get_player_position w s) as Hk. rewrite Hp in Hk.
  destruct Hk as (Hl & _). cbn [snd] in Hl. cbv zeta in Hm.
  repeat case_match; injection Hm as _ <-; done.
Qed.

Lemma keeps_tidy_add_timestamp : keeps_tidy (add_timestamp w).
Proof.
  intros s r s' [Hok Hls] Hadd.
  split; [by eapply keeps_cursor_add_timestamp|].
  destruct Hok as [Hlen Hcur].
  destruct (get_player_position_value w s) as (q & s1 & Hp).
  destruct (lines (ed s) !! Z.to_nat (current_line (ed s))) as [line|] eqn:El.
  2:{ apply lookup_ge_None in El. lia. }
  assert (one_line line = true) as Hline.
  { by apply (proj1 (Forall_lookup _ _) Hls _ _ El). }
  pose proof (add_timestamp_spec w s q s1 line Hp (proj1 Hcur) El) as H.
  cbv zeta in H.
  assert (forall text,
            (if PyStr.startswith "[" line
             then String.append (format_timestamp q) <$>
                    PyStr.split1 "]" line !! 1%nat
             else Some (format_timestamp q ++ line)) = Some text ->
            one_line text = true) as Htext.
  { intros text. destruct (PyStr.startswith "[" line).
    - destruct (PyStr.split1 "]" line !! 1%nat) as [rest|] eqn:Er;
        [|discriminate].
      cbn [fmap option_fmap option_map]. intros Heq.
      assert (text = format_timestamp q ++ rest) as -> by congruence.
      rewrite one_line_app, format_timestamp_one_line.
      by apply (proj1 (Forall_lookup _ _) (split1_one_line "]" line Hline)
                  _ _ Er).
    - intros Heq.
      assert (text = format_timestamp q ++ line) as -> by congruence.
      by rewrite one_line_app, format_timestamp_one_line. }
  destruct (if PyStr.startswith "[" line then _ else _) as [text|].
  - destruct H as (s2 & H2 & Hl & _). rewrite Hadd in H2.
    injection H2 as _ <-. rewrite Hl. apply Forall_app. split.
    + apply Forall_insert; [done|]. by apply Htext.
    + destruct (_ =? _); by repeat constructor.
  - destruct H as [H _]. by rewrite Hadd in H.
Qed.

Lemma keeps_tidy_remove_timestamp : keeps_tidy remove_timestamp.
Proof.
  intros s r s' [Hok Hls] Hrm.
  split; [by eapply keeps_cursor_remove_timestamp|].
  destruct Hok as [Hlen Hcur]. revert Hrm.
  unfold remove_timestamp, bind, self, PyList.getitem, PyList.setitem,
    PyList.pop.
  rewrite norm_index_nonneg by lia. cbn [mbind option_bind].
  destruct (lines (ed s) !! Z.to_nat (current_line (ed s))) as [line|] eqn:El;
    [|discriminate].
  assert (one_line line = true) as Hline.
  { by apply (proj1 (Forall_lookup _ _) Hls _ _ El). }
  cbn [or_raise ret]. destruct (String.eqb line EmptyString).
  - destruct (1 <? length (lines (ed s)))%nat; [|by intros [= _ <-]].
    cbn [or_raise ret assign ed clock].
    destruct (_ <=? _); intros [= _ <-]; cbn; by apply Forall_delete.
  - destruct (PyStr.startswith "[" line); [|by intros [= _ <-]].
    assert (one_line
              (if (1 <? length (PyStr.split1 "]" line))%nat
               then default EmptyString (PyStr.split1 "]" line !! 1%nat)
               else EmptyString) = true) as Hnew.
    { destruct (1 <? length (PyStr.split1 "]" line))%nat; [|done].
      destruct (PyStr.split1 "]" line !! 1%nat) as [rest|] eqn:Er; [|done].
      by apply (proj1 (Forall_lookup _ _) (split1_one_line "]" line Hline)
                  _ _ Er). }
    cbn [or_raise ret assign ed clock]. intros [= _ <-].
    cbn [ed lines set_modified set_lines]. by apply Forall_insert.
Qed.

Lemma keeps_tidy_dispatch k :
  editing_key k = true -> keeps_tidy (dispatch w k).
Proof.
  destruct k; try discriminate; intros _; cbn [dispatch];
    try apply keeps_tidy_ret;
    (apply keeps_tidy_bind; [|intros; apply keeps_tidy_ret]).
  - apply keeps_tidy_add_timestamp.
  - apply keeps_tidy_remove_timestamp.
  - apply keeps_keeps_tidy, keeps_restart_playback.
  - apply keeps_keeps_tidy, keeps_seek_relative.
  - apply keeps_keeps_tidy, keeps_seek_relative.
  - apply keeps_tidy_same_lines; [apply keeps_cursor_cursor_down|].
    by intros s r s' [= _ <-].
  - apply keeps_tidy_same_lines; [apply keeps_cursor_cursor_up|].
    by intros s r s' [= _ <-].
  - apply keeps_tidy_move_to_closest_timestamp.
Qed.

Lemma keeps_tidy_run_iteration last k :
  from_option editing_key true k = true ->
  keeps_tidy (run_iteration w last k).
Proof.
  intros Hk. unfold run_iteration.
  apply keeps_tidy_bind;
    [apply keeps_keeps_tidy, keeps_get_player_position|intros _].
  apply keeps_tidy_bind;
    [apply keeps_keeps_tidy, keeps_get_relative_time|intros _].
  apply keeps_tidy_bind; [apply keeps_keeps_tidy, keeps_ask|intros now].
  apply keeps_tidy_bind.
  - unfold sync_tick. apply keeps_tidy_bind;
      [apply keeps_keeps_tidy, keeps_self|intros e].
    destruct (_ && _); [|apply keeps_tidy_ret].
    apply keeps_tidy_bind; [apply keeps_tidy_move_to_closest_timestamp|].
    intros; apply keeps_tidy_ret.
  - intros l. destruct k as [k|]; [|apply keeps_tidy_ret].
    apply keeps_tidy_bind; [by apply keeps_tidy_dispatch|].
    intros; apply keeps_tidy_ret.
Qed.

Lemma keeps_tidy_run_from keys : forall last,
  forallb (from_option editing_key true) keys = true ->
  keeps_tidy (run_from w last keys).
Proof.
  induction keys as [|k keys IH]; intros last Hkeys; cbn [run_from].
  - apply keeps_tidy_ret.
  - cbn [forallb] in Hkeys. apply andb_true_iff in Hkeys as [Hk Hkeys].
    apply keeps_tidy_bind; [by apply keeps_tidy_run_iteration|].
    intros [l [x|]]; cbn [fst snd]; [apply keeps_tidy_ret|by apply IH].
Qed.

End Tidy.

(** A session on the file that holds [text], in which the keys [l] and [e]
    are not pressed, leaves lines without line breaks: the file that [main]
    then writes reads back as the document, short of one empty last line. *)
Theorem saved_session_reopens (w : world) (text : string) (t0 : nat)
    (keys : list (option key)) (s0 s' : machine) (r : option exit) :
  forallb (from_option editing_key true) keys = true ->
  main_start w (splitlines (universal_newlines text)) (Machine init_editor t0)
    = (Val tt, s0) ->
  run w keys s0 = (Val r, s') ->
  Forall (fun l => one_line l = true) (lines (ed s')) /\
  (forall l, last (lines (ed s')) = Some l -> l <> EmptyString ->
             reopen (lines (ed s')) = lines (ed s')) /\
  (forall front, lines (ed s') = (front ++ [EmptyString])%list ->
                 front <> [] -> reopen (lines (ed s')) = front).
Proof.
  intros Hkeys Hstart Hrun.
  assert (tidy (ed s0)) as H0.
  { destruct (main_start_cursor_ok w (splitlines (universal_newlines text)) t0)
      as (s0' & H0 & Hok).
    rewrite Hstart in H0. injection H0 as <-. split; [done|].
    revert Hstart. unfold main_start, bind.
    destruct (get_player_position w (Machine init_editor t0)) as [[q|e] s1];
      [|discriminate].
    intros [= <-]. cbn.
    pose proof (splitlines_one_line (universal_newlines text)) as Hs.
    destruct (splitlines (universal_newlines text)); [|done].
    by repeat constructor. }
  assert (Forall (fun l => one_line l = true) (lines (ed s'))) as Hls.
  { by apply (keeps_tidy_run_from w keys 0%Q Hkeys s0 r s' H0 Hrun). }
  split; [done|]. split.
  - intros l Hlast Hne. unfold reopen. by apply (open_text_join_full _ l).
  - intros front Hfront Hne. unfold reopen. rewrite Hfront in *.
    apply Forall_app in Hls as [Hls _].
    rewrite open_text_join_trailing by done. by destruct front.
Qed.

Lemma saved_session_reopens_witness :
  Forall (fun l => one_line l = true)
    (lines (ed (snd (run demo_world [Some Key_space; Some Key_s]
                       (snd (main_start demo_world ["la"; "li"]
                               (Machine init_editor 0))))))).
Proof.
  eapply (saved_session_reopens demo_world
            (String.append "la" (String (ascii_of_nat 10) "li")) 0%nat
            [Some Key_space; Some Key_s]
            (snd (main_start demo_world ["la"; "li"] (Machine init_editor 0)))
            (snd (run demo_world [Some Key_space; Some Key_s]
                    (snd (main_start demo_world ["la"; "li"]
                            (Machine init_editor 0)))))
            (Some Save)).
  - reflexivity.
  - vm_compute. reflexivity.
  - vm_compute. reflexivity.
Defined.

(** * [add_timestamp] at a concrete line *)

